(** * NPM Sentinel MCP server: the tool handlers of [src/index.ts]

    A shallow embedding of the handlers that take a list of package names
    (or a search query), of the values they read from the upstream
    registries, and of the promise plumbing around [fetch]; followed by the
    properties of the per-item fan-out, of the rendered reports and of the
    defaults. *)

From Stdlib Require Import String Ascii List Bool ZArith QArith Qround Qminmax Lia.
From Stdlib Require Import Qabs Qpower Qreduction Lqa DecimalString.
Import ListNotations.
Local Open Scope Q_scope.
Local Open Scope string_scope.
Set Warnings "-register-all".

(** ** Text helpers *)

Definition nl : string := String (ascii_of_nat 10) EmptyString.
Definition dquote : string := String (ascii_of_nat 34) EmptyString.

(** [String(n)] for a non-negative integer that the host holds exactly. *)
Definition nat_toString (n : nat) : string :=
  NilZero.string_of_uint (Nat.to_uint n).

(** [String(z)] for an integer that the host holds exactly. *)
Definition int_toString (z : Z) : string :=
  NilZero.string_of_int (Z.to_int z).

(** ['c'.repeat(n)] *)
Fixpoint repeat_string (s : string) (n : nat) : string :=
  match n with
  | O => ""
  | S k => s ++ repeat_string s k
  end.

(** [s.replace(c, by)] with a one-character pattern: only the first
    occurrence is replaced. *)
Fixpoint replace_first (c : ascii) (by_ : string) (s : string) : string :=
  match s with
  | EmptyString => EmptyString
  | String a rest =>
      if Ascii.eqb a c then by_ ++ rest else String a (replace_first c by_ rest)
  end.

(** Number of UTF-16 code units of a string held as UTF-8 bytes: one per
    lead byte, two for the lead byte of a four-byte sequence, none for a
    continuation byte. *)
Fixpoint utf16_length (s : string) : nat :=
  match s with
  | EmptyString => 0
  | String a rest =>
      let b := nat_of_ascii a in
      (if Nat.ltb b 128 then 1
       else if Nat.ltb b 192 then 0
       else if Nat.ltb b 240 then 1
       else 2) + utf16_length rest
  end.

(** ** Values of the host language *)

Module JS.

(** A number of the host: a finite binary64 value, given by the rational it
    stands for, the negative zero, an infinity, or NaN.  The zero of
    [Finite] is the positive one. *)
Inductive Number : Type :=
| Finite (q : Q)
| NegativeZero
| Infinity (negative : bool)
| NaN.

Coercion Finite : Q >-> Number.

(** What [response.json()] produces.  An object keeps its own enumerable
    properties in enumeration order, each key once. *)
Inductive JSON : Type :=
| JNull
| JBool (b : bool)
| JNum (n : Number)
| JStr (s : string)
| JArr (items : list JSON)
| JObj (props : list (string * JSON)).

(** A value that may be [undefined]. *)
Definition Value := option JSON.
Definition undefined : Value := None.

(** Everything thrown in these handlers is an [Error] instance
    ([new Error(..)], the [TypeError] of a bad property read or of a failed
    string conversion, the rejection of [fetch] and of [json()]), so
    [error instanceof Error] holds and the handlers read [error.message]. *)
Record Error : Type := mkError { message : string }.

Definition TypeError (msg : string) : Error := mkError msg.

(** A synchronous step that may throw, and the step after it. *)
Definition and_then {A B} (r : Error + A) (k : A -> Error + B) : Error + B :=
  match r with
  | inl e => inl e
  | inr a => k a
  end.

(** [array.map(f)] with a callback that may throw: the elements are visited
    in order and the first throw ends the visit. *)
Fixpoint map_throwing {A B} (f : A -> Error + B) (l : list A) : Error + list B :=
  match l with
  | [] => inr []
  | a :: rest =>
      match f a with
      | inl e => inl e
      | inr b =>
          match map_throwing f rest with
          | inl e => inl e
          | inr bs => inr (b :: bs)
          end
      end
  end.

(** A loop whose body may throw. *)
Fixpoint fold_throwing {A B} (f : B -> A -> Error + B) (l : list A) (init : B)
  : Error + B :=
  match l with
  | [] => inr init
  | a :: rest =>
      match f init a with
      | inl e => inl e
      | inr b => fold_throwing f rest b
      end
  end.

Fixpoint assoc (k : string) (props : list (string * JSON)) : Value :=
  match props with
  | [] => None
  | (k', v) :: rest => if String.eqb k k' then Some v else assoc k rest
  end.

Definition index_of_key (k : string) (n : nat) : option nat :=
  find (fun i => String.eqb (nat_toString i) k) (seq 0 n).

(** [o[k]] on a value that is neither [null] nor [undefined]: own
    properties of objects and index properties of arrays.  Inherited
    members and the index properties of string primitives are left out:
    the fixed keys read by the handlers below name none of them, and the
    one computed key (the latest version, in the readme handler) is looked
    up among own properties only. *)
Definition get (o : JSON) (k : string) : Value :=
  match o with
  | JObj props => assoc k props
  | JArr items =>
      match index_of_key k (length items) with
      | Some i => nth_error items i
      | None => None
      end
  | _ => None
  end.

(** [v.k]: a [TypeError] on [null] and [undefined]. *)
Definition prop (v : Value) (k : string) : Error + Value :=
  match v with
  | None =>
      inl (TypeError ("Cannot read properties of undefined (reading '" ++ k ++ "')"))
  | Some JNull =>
      inl (TypeError ("Cannot read properties of null (reading '" ++ k ++ "')"))
  | Some o => inr (get o k)
  end.

(** [v?.k] *)
Definition opt_prop (v : Value) (k : string) : Value :=
  match v with
  | None | Some JNull => None
  | Some o => get o k
  end.

(** [typeof v === 'object' && v !== null] *)
Definition is_object (v : Value) : bool :=
  match v with
  | Some (JObj _) | Some (JArr _) => true
  | _ => false
  end.

(** [k in o] for an object or an array *)
Definition has_prop (k : string) (o : JSON) : bool :=
  match get o k with
  | Some _ => true
  | None => false
  end.

Definition is_string (v : Value) : bool :=
  match v with Some (JStr _) => true | _ => false end.

Definition Array_isArray (v : Value) : bool :=
  match v with Some (JArr _) => true | _ => false end.

(** The numbers that are falsy: the two zeros and NaN. *)
Definition Number_falsy (n : Number) : bool :=
  match n with
  | Finite q => Qeq_bool q 0
  | NegativeZero | NaN => true
  | Infinity _ => false
  end.

(** Truthiness, as [||], [!] and [if] see it. *)
Definition truthy (v : Value) : bool :=
  match v with
  | None | Some JNull => false
  | Some (JBool b) => b
  | Some (JNum n) => negb (Number_falsy n)
  | Some (JStr s) => negb (String.eqb s "")
  | Some (JArr _) | Some (JObj _) => true
  end.

(** [a || b] *)
Definition or_else (a b : Value) : Value := if truthy a then a else b.

(** [a ?? b] *)
Definition nullish_else (a : Value) (b : JSON) : JSON :=
  match a with
  | None | Some JNull => b
  | Some v => v
  end.

Definition indices (n : nat) : list string := map nat_toString (seq 0 n).

(** [Object.keys(v)]: a [TypeError] on [null] and [undefined], the own
    keys of an object, the indices of an array or of a string, nothing
    for a number or a boolean. *)
Definition Object_keys (v : Value) : Error + list string :=
  match v with
  | None | Some JNull =>
      inl (TypeError "Cannot convert undefined or null to object")
  | Some (JObj props) => inr (map fst props)
  | Some (JArr items) => inr (indices (length items))
  | Some (JStr s) => inr (indices (utf16_length s))
  | Some (JNum _) | Some (JBool _) => inr []
  end.

(** *** Arithmetic

    The operations of the handlers on numbers, in binary64: the real result
    is rounded to the nearest value, the even one on a tie. *)

Module Binary64.

(** [floor (log2 |x|)] for a rational other than zero. *)
Definition binade (x : Q) : Z :=
  let k := (Z.log2 (Z.abs (Qnum x)) - Z.log2 (Zpos (Qden x)))%Z in
  if Qle_bool (2 ^ k) (Qabs x) then k else (k - 1)%Z.

(** The nearest integer, the even one on a tie. *)
Definition round_half_even (x : Q) : Z :=
  let f := Qfloor x in
  match (x - inject_Z f ?= 1 # 2)%Q with
  | Lt => f
  | Gt => (f + 1)%Z
  | Eq => if Z.even f then f else (f + 1)%Z
  end.

(** The exponent of the spacing of the binary64 values around [x]: 53
    significant bits, and the spacing of the subnormal values at the
    least. *)
Definition ulp_exponent (x : Q) : Z := Z.max (binade x - 52) (-1074).

(** A real other than zero, rounded to the nearest multiple of that
    spacing. *)
Definition nearest (x : Q) : Q :=
  let e := ulp_exponent x in
  inject_Z (round_half_even (x / 2 ^ e)) * 2 ^ e.

Definition negative (x : Q) : bool := (Qnum x <? 0)%Z.

(** The value of an operation whose real result is [x]: rounded to the
    nearest, an overflow gives an infinity and an underflow a zero of the
    sign of [x]; an exact zero is the positive one. *)
Definition of_real (x : Q) : Number :=
  if Qeq_bool x 0 then Finite 0
  else
    let y := nearest x in
    if Qle_bool (2 ^ 1024) (Qabs y) then Infinity (negative x)
    else if Qeq_bool y 0 then (if negative x then NegativeZero else Finite 0)
    else Finite (Qred y).

(** [a + b] *)
Definition add (a b : Number) : Number :=
  match a, b with
  | NaN, _ | _, NaN => NaN
  | Infinity s, Infinity s' => if Bool.eqb s s' then Infinity s else NaN
  | Infinity s, _ | _, Infinity s => Infinity s
  | NegativeZero, NegativeZero => NegativeZero
  | NegativeZero, Finite y => Finite y
  | Finite x, NegativeZero => Finite x
  | Finite x, Finite y => of_real (x + y)
  end.

(** [a / d] for a positive integer [d] *)
Definition div (a : Number) (d : positive) : Number :=
  match a with
  | Finite x => of_real (x / inject_Z (Zpos d))
  | other => other
  end.

(** [a * k] for a positive integer [k] *)
Definition mul (a : Number) (k : positive) : Number :=
  match a with
  | Finite x => of_real (x * inject_Z (Zpos k))
  | other => other
  end.

End Binary64.

(** [Math.round]: the nearest integer, the upper one on a tie; the zero it
    gives for a negative number is the negative one. *)
Definition Math_round (a : Number) : Number :=
  match a with
  | Finite x =>
      let z := Qfloor (x + (1 # 2)) in
      if (z =? 0)%Z then (if Binary64.negative x then NegativeZero else Finite 0)
      else Finite (inject_Z z)
  | other => other
  end.

(** [Math.min(1, a)] *)
Definition Math_min_1 (a : Number) : Number :=
  match a with
  | Finite x => if Qle_bool x 1 then Finite x else Finite 1
  | NegativeZero => NegativeZero
  | Infinity true => Infinity true
  | Infinity false => Finite 1
  | NaN => NaN
  end.

Section ToString.
(** How the host prints a finite number that is not a safe integer: a
    fraction, or an integer of magnitude [2^53] or more (which it may print
    rounded, and in exponent form from 1e21 on). *)
Variable fraction_toString : Q -> string.

(** The integer a finite number stands for, when its magnitude is below
    [2^53]. *)
Definition safe_integer (q : Q) : option Z :=
  let r := Qred q in
  if Pos.eqb (Qden r) 1 && (Z.abs (Qnum r) <? 2 ^ 53)%Z then Some (Qnum r) else None.

(** [Number.prototype.toString]: a safe integer is printed in decimal. *)
Definition Number_toString (n : Number) : string :=
  match n with
  | Finite q =>
      match safe_integer q with
      | Some z => int_toString z
      | None => fraction_toString q
      end
  | NegativeZero => "0"
  | Infinity false => "Infinity"
  | Infinity true => "-Infinity"
  | NaN => "NaN"
  end.

(** String conversion as a template literal, a computed key and [+=] on a
    string perform it on a value read from parsed JSON.  An object is
    converted by the [toString] it finds: the one it inherits answers
    [[object Object]]; an own property of that name hides it, is not
    callable, and the conversion throws.  An array joins the conversions
    of its elements, [null] giving the empty string. *)
Fixpoint JSON_toString (v : JSON) : Error + string :=
  match v with
  | JNull => inr "null"
  | JBool true => inr "true"
  | JBool false => inr "false"
  | JNum n => inr (Number_toString n)
  | JStr s => inr s
  | JArr items =>
      match map_throwing (fun x => match x with
                                   | JNull => inr ""
                                   | _ => JSON_toString x
                                   end) items with
      | inl e => inl e
      | inr pieces => inr (String.concat "," pieces)
      end
  | JObj props =>
      match assoc "toString" props with
      | Some _ => inl (TypeError "Cannot convert object to primitive value")
      | None => inr "[object Object]"
      end
  end.

Definition toString (v : Value) : Error + string :=
  match v with
  | None => inr "undefined"
  | Some j => JSON_toString j
  end.

(** The values whose string conversion does not throw. *)
Definition printable (v : Value) : bool :=
  match toString v with
  | inr _ => true
  | inl _ => false
  end.
End ToString.

End JS.
Import JS.

Notation "x <-! c ;; k" := (and_then c (fun x => k))
  (at level 61, c at next level, right associativity).

(** ** The network *)

Module Net.

Record Request : Type := mkRequest {
  url : string;
  headers : list (string * string)
}.

(** A response as the handlers see it: the status line, and what
    [response.json()] settles to. *)
Record Response : Type := mkResponse {
  status : Z;
  statusText : string;
  body : Error + JSON
}.

(** [response.ok] of node-fetch: a status from 200 to 299. *)
Definition ok (r : Response) : bool :=
  ((200 <=? status r) && (status r <? 300))%Z.

(** The registries during one tool call: what [fetch] settles to for a
    request, a rejection (network failure) or a response. *)
Definition Upstream : Type := Request -> Error + Response.

Definition no_headers : list (string * string) := [].

Definition sentinel_headers : list (string * string) :=
  [("Accept", "application/json"); ("User-Agent", "NPM-Sentinel-MCP")].

End Net.
Import Net.

(** ** Promises

    An async function is run to settlement.  Its meaning is the list of
    requests it issued together with the way it settled.  The list says
    which requests are issued, those of one item next to each other; how
    the requests of concurrent items interleave in time is not modelled. *)

Module Promise.

Inductive Settled (A : Type) : Type :=
| Fulfilled (a : A)
| Rejected (e : Error).
Arguments Fulfilled {A} a.
Arguments Rejected {A} e.

Definition Async (A : Type) : Type := (list Request * Settled A)%type.

Definition requests {A} (p : Async A) : list Request := fst p.
Definition settled {A} (p : Async A) : Settled A := snd p.

Definition ret {A} (a : A) : Async A := ([], Fulfilled a).

Definition throw {A} (e : Error) : Async A := ([], Rejected e).

(** [await] followed by the rest of the function body: a rejection skips
    the rest, so the requests of the rest are not issued. *)
Definition bind {A B} (p : Async A) (k : A -> Async B) : Async B :=
  match p with
  | (l, Fulfilled a) => let (l', s) := k a in ((l ++ l')%list, s)
  | (l, Rejected e) => (l, Rejected e)
  end.

(** [try { body } catch (error) { handler }] *)
Definition try_catch {A} (p : Async A) (h : Error -> Async A) : Async A :=
  match p with
  | (l, Fulfilled a) => (l, Fulfilled a)
  | (l, Rejected e) => let (l', s) := h e in ((l ++ l')%list, s)
  end.

(** What a [try] whose [catch] returns a value comes to. *)
Definition recover {A} (p : Async A) (h : Error -> A) : A :=
  match settled p with
  | Fulfilled a => a
  | Rejected e => h e
  end.

(** A synchronous step that may throw. *)
Definition lift {A} (r : Error + A) : Async A :=
  match r with
  | inl e => throw e
  | inr a => ret a
  end.

(** [if (c) throw e] *)
Definition throw_if (c : bool) (e : Error) : Async unit :=
  if c then throw e else ret tt.

(** [Promise.all] over promises that are all already running: every one
    of them runs to its end whatever the others do, and the result
    rejects as soon as one rejects.  Which rejection wins is a matter of
    timing; here it is the first in list order. *)
Fixpoint all {A} (ps : list (Async A)) : Async (list A) :=
  match ps with
  | [] => ret []
  | (l, s) :: rest =>
      let (l', s') := all rest in
      ((l ++ l')%list,
       match s, s' with
       | Rejected e, _ => Rejected e
       | Fulfilled _, Rejected e => Rejected e
       | Fulfilled a, Fulfilled tl => Fulfilled (a :: tl)
       end)
  end.

(** The two-promise form [Promise.all([p, q])]. *)
Definition both {A B} (p : Async A) (q : Async B) : Async (A * B) :=
  ((fst p ++ fst q)%list,
   match snd p, snd q with
   | Rejected e, _ => Rejected e
   | Fulfilled _, Rejected e => Rejected e
   | Fulfilled a, Fulfilled b => Fulfilled (a, b)
   end).

Section Fetch.
Variable upstream : Upstream.

(** [fetch(url, { headers })] *)
Definition fetch (u : string) (h : list (string * string)) : Async Response :=
  let r := mkRequest u h in
  ([r], match upstream r with
        | inl e => Rejected e
        | inr resp => Fulfilled resp
        end).
End Fetch.

(** [response.json()] *)
Definition json (r : Response) : Async JSON := lift (body r).

End Promise.
Import Promise.

Declare Scope async_scope.
Delimit Scope async_scope with async.
Notation "x <- c ;; k" := (bind c (fun x => k))
  (at level 61, c at next level, right associativity) : async_scope.
Notation "c ;;; k" := (bind c (fun _ => k))
  (at level 61, right associativity) : async_scope.

(** ** Schemas (lines 9-89 and 221-256)

    A zod schema is embedded as the parser it stands for: [parse] either
    returns the typed value or fails. *)

Module Zod.

Definition Schema (A : Type) : Type := Value -> option A.

(** [z.string()] *)
Definition string_ : Schema string :=
  fun v => match v with Some (JStr s) => Some s | _ => None end.

(** [z.number()]: any number but NaN. *)
Definition number : Schema Number :=
  fun v => match v with
           | Some (JNum NaN) => None
           | Some (JNum n) => Some n
           | _ => None
           end.

(** [z.union([a, b])] *)
Definition union {A} (a b : Schema A) : Schema A :=
  fun v => match a v with
           | Some x => Some x
           | None => b v
           end.

(** [s.optional()]: [undefined] passes, [null] does not. *)
Definition optional {A} (s : Schema A) : Schema (option A) :=
  fun v => match v with
           | None => Some None
           | Some _ => option_map Some (s v)
           end.

Fixpoint traverse {A B} (f : A -> option B) (l : list A) : option (list B) :=
  match l with
  | [] => Some []
  | a :: rest =>
      match f a, traverse f rest with
      | Some b, Some bs => Some (b :: bs)
      | _, _ => None
      end
  end.

(** [z.array(s)] *)
Definition array {A} (s : Schema A) : Schema (list A) :=
  fun v => match v with
           | Some (JArr items) => traverse (fun x => s (Some x)) items
           | _ => None
           end.

(** [z.record(s)]: a plain object all of whose values satisfy [s]. *)
Definition record {A} (s : Schema A) : Schema (list (string * A)) :=
  fun v => match v with
           | Some (JObj props) =>
               traverse (fun kv => option_map (pair (fst kv)) (s (Some (snd kv)))) props
           | _ => None
           end.

(** [z.object({..})]: a plain object (not an array, not [null]); the
    fields are read by [body].  Keys that are not declared are ignored. *)
Definition object_ {A} (body : JSON -> option A) : Schema A :=
  fun v => match v with
           | Some (JObj props) => body (JObj props)
           | _ => None
           end.

Definition field {A} (s : Schema A) (k : string) (o : JSON) : option A :=
  s (get o k).

Definition success {A} (r : option A) : bool :=
  match r with Some _ => true | None => false end.

End Zod.

Notation "x <-? c ;; k" := (match c with Some x => k | None => None end)
  (at level 61, c at next level, right associativity).

(** The documented shape of a registry document, [NpmPackageInfoSchema]
    with [NpmMaintainerSchema] and [NpmPackageVersionSchema] (lines 9-64).
    The handlers never run these parsers: the type [NpmPackageInfo] that
    [isNpmPackageInfo] asserts is inferred from them.  Only what they accept
    is kept here. *)
Definition NpmMaintainerSchema : Zod.Schema unit :=
  Zod.object_ (fun o =>
    _ <-? Zod.field Zod.string_ "name" o ;;
    _ <-? Zod.field (Zod.optional Zod.string_) "email" o ;;
    _ <-? Zod.field (Zod.optional Zod.string_) "url" o ;;
    Some tt).

(** [z.object({ type, url }).passthrough()], and the same with [url] alone *)
Definition repository_schema : Zod.Schema unit :=
  Zod.object_ (fun o =>
    _ <-? Zod.field (Zod.optional Zod.string_) "type" o ;;
    _ <-? Zod.field (Zod.optional Zod.string_) "url" o ;;
    Some tt).

Definition bugs_schema : Zod.Schema unit :=
  Zod.object_ (fun o =>
    _ <-? Zod.field (Zod.optional Zod.string_) "url" o ;;
    Some tt).

Definition NpmPackageVersionSchema : Zod.Schema unit :=
  Zod.object_ (fun o =>
    _ <-? Zod.field Zod.string_ "name" o ;;
    _ <-? Zod.field Zod.string_ "version" o ;;
    _ <-? Zod.field (Zod.optional Zod.string_) "description" o ;;
    _ <-? Zod.field
            (Zod.optional
               (Zod.union (fun v => option_map (fun _ => tt) (Zod.string_ v))
                  (Zod.object_ (fun _ => Some tt))))
            "author" o ;;
    _ <-? Zod.field (Zod.optional Zod.string_) "license" o ;;
    _ <-? Zod.field (Zod.optional repository_schema) "repository" o ;;
    _ <-? Zod.field (Zod.optional bugs_schema) "bugs" o ;;
    _ <-? Zod.field (Zod.optional Zod.string_) "homepage" o ;;
    Some tt).

Definition NpmPackageInfoSchema : Zod.Schema unit :=
  Zod.object_ (fun o =>
    _ <-? Zod.field Zod.string_ "name" o ;;
    _ <-? Zod.field (Zod.record Zod.string_) "dist-tags" o ;;
    _ <-? Zod.field (Zod.record NpmPackageVersionSchema) "versions" o ;;
    _ <-? Zod.field (Zod.optional (Zod.record Zod.string_)) "time" o ;;
    _ <-? Zod.field (Zod.optional repository_schema) "repository" o ;;
    _ <-? Zod.field (Zod.optional bugs_schema) "bugs" o ;;
    _ <-? Zod.field (Zod.optional Zod.string_) "homepage" o ;;
    _ <-? Zod.field (Zod.optional (Zod.array NpmMaintainerSchema)) "maintainers" o ;;
    Some tt).

Module NpmPackageData.
Record t : Type := mk {
  name : string;
  version : string;
  description : option string;
  license : option string;
  dependencies : option (list (string * string));
  devDependencies : option (list (string * string));
  peerDependencies : option (list (string * string));
  types : option string;
  typings : option string
}.
End NpmPackageData.

Definition NpmPackageDataSchema : Zod.Schema NpmPackageData.t :=
  Zod.object_ (fun o =>
    name <-? Zod.field Zod.string_ "name" o ;;
    version <-? Zod.field Zod.string_ "version" o ;;
    description <-? Zod.field (Zod.optional Zod.string_) "description" o ;;
    license <-? Zod.field (Zod.optional Zod.string_) "license" o ;;
    dependencies <-? Zod.field (Zod.optional (Zod.record Zod.string_)) "dependencies" o ;;
    devDependencies <-? Zod.field (Zod.optional (Zod.record Zod.string_)) "devDependencies" o ;;
    peerDependencies <-? Zod.field (Zod.optional (Zod.record Zod.string_)) "peerDependencies" o ;;
    types <-? Zod.field (Zod.optional Zod.string_) "types" o ;;
    typings <-? Zod.field (Zod.optional Zod.string_) "typings" o ;;
    Some (NpmPackageData.mk name version description license dependencies
            devDependencies peerDependencies types typings)).

Module NpmDownloadsData.
Record t : Type := mk {
  downloads : Number;
  start : string;
  end_ : string;
  package : string
}.
End NpmDownloadsData.

Definition NpmDownloadsDataSchema : Zod.Schema NpmDownloadsData.t :=
  Zod.object_ (fun o =>
    downloads <-? Zod.field Zod.number "downloads" o ;;
    start <-? Zod.field Zod.string_ "start" o ;;
    end_ <-? Zod.field Zod.string_ "end" o ;;
    package <-? Zod.field Zod.string_ "package" o ;;
    Some (NpmDownloadsData.mk downloads start end_ package)).

Module SearchResult.
Record Links : Type := mkLinks {
  npm : option string;
  homepage : option string;
  repository : option string
}.
Record Package : Type := mkPackage {
  name : string;
  version : string;
  description : option string;
  keywords : option (list string);
  publisher : option string;
  links : option Links
}.
Record Detail : Type := mkDetail {
  quality : Number;
  popularity : Number;
  maintenance : Number
}.
Record Score : Type := mkScore {
  final : Number;
  detail : Detail
}.
Record Entry : Type := mkEntry {
  package : Package;
  score : Score;
  searchScore : Number
}.
Record t : Type := mk {
  objects : list Entry;
  total : Number
}.
End SearchResult.

Definition NpmSearchResultSchema : Zod.Schema SearchResult.t :=
  let publisher :=
    Zod.object_ (fun o => Zod.field Zod.string_ "username" o) in
  let links :=
    Zod.object_ (fun o =>
      npm <-? Zod.field (Zod.optional Zod.string_) "npm" o ;;
      homepage <-? Zod.field (Zod.optional Zod.string_) "homepage" o ;;
      repository <-? Zod.field (Zod.optional Zod.string_) "repository" o ;;
      Some (SearchResult.mkLinks npm homepage repository)) in
  let package :=
    Zod.object_ (fun o =>
      name <-? Zod.field Zod.string_ "name" o ;;
      version <-? Zod.field Zod.string_ "version" o ;;
      description <-? Zod.field (Zod.optional Zod.string_) "description" o ;;
      keywords <-? Zod.field (Zod.optional (Zod.array Zod.string_)) "keywords" o ;;
      publisher <-? Zod.field (Zod.optional publisher) "publisher" o ;;
      links <-? Zod.field (Zod.optional links) "links" o ;;
      Some (SearchResult.mkPackage name version description keywords publisher links)) in
  let detail :=
    Zod.object_ (fun o =>
      quality <-? Zod.field Zod.number "quality" o ;;
      popularity <-? Zod.field Zod.number "popularity" o ;;
      maintenance <-? Zod.field Zod.number "maintenance" o ;;
      Some (SearchResult.mkDetail quality popularity maintenance)) in
  let score :=
    Zod.object_ (fun o =>
      final <-? Zod.field Zod.number "final" o ;;
      detail <-? Zod.field detail "detail" o ;;
      Some (SearchResult.mkScore final detail)) in
  let entry :=
    Zod.object_ (fun o =>
      package <-? Zod.field package "package" o ;;
      score <-? Zod.field score "score" o ;;
      searchScore <-? Zod.field Zod.number "searchScore" o ;;
      Some (SearchResult.mkEntry package score searchScore)) in
  Zod.object_ (fun o =>
    objects <-? Zod.field (Zod.array entry) "objects" o ;;
    total <-? Zod.field Zod.number "total" o ;;
    Some (SearchResult.mk objects total)).

(** ** Type guards for API responses (lines 527-569) *)

(** The callback of [maintainers.every(..)]. *)
Definition is_maintainer (m : JSON) : bool :=
  is_object (Some m)
  && has_prop "name" m
  && has_prop "email" m
  && is_string (get m "name")
  && is_string (get m "email").

Definition isNpmPackageInfo (data : JSON) : bool :=
  is_object (Some data)
  && (negb (has_prop "maintainers" data)
      || (Array_isArray (get data "maintainers")
          && match get data "maintainers" with
             | Some (JArr ms) => forallb is_maintainer ms
             | _ => true
             end)).

(** [try { return Schema.parse(data) !== null } catch { return false }] *)
Definition isNpmPackageData (data : JSON) : bool :=
  Zod.success (NpmPackageDataSchema (Some data)).


(** ** Tool results *)

Record TextContent : Type := mkText { text : string }.

Record CallToolResult : Type := mkResult {
  content : list TextContent;
  isError : bool
}.

(** ** The handlers *)

Local Open Scope async_scope.

Inductive VersionsResult : Type :=
| VersionsSuccess (name : string) (versions : list string) (latest : Value)
| VersionsFailure (name : string) (error : string).

Inductive LatestResult : Type :=
| LatestSuccess (name : string)
    (version description author license homepage : Value)
| LatestFailure (name : string) (error : string).

Inductive DepsResult : Type :=
| DepsSuccess (name version : string)
    (dependencies devDependencies peerDependencies : list (string * string))
| DepsFailure (name : string) (error : string).

Section Handlers.

Variable upstream : Upstream.
(** The host's printing of the numbers that are not safe integers,
    [toLocaleString] and [toFixed(digits)] of a number, and
    [encodeURIComponent]. *)
Variable fraction_toString : Q -> string.
Variable toLocaleString : Number -> string.
Variable toFixed : nat -> Number -> string.
Variable encodeURIComponent : string -> string.

Let fetch := Promise.fetch upstream.
Let str := JS.toString fraction_toString.
Let num := JS.Number_toString fraction_toString.

(** *** npmVersions: [handleNpmVersions], lines 571-622 *)

(** The [try] block of one item. *)
Definition versions_try (pkg : string) : Async VersionsResult :=
  response <- fetch ("https://registry.npmjs.org/" ++ pkg) sentinel_headers ;;
  throw_if (negb (ok response))
    (mkError ("Failed to fetch package info: " ++ statusText response)) ;;;
  data <- json response ;;
  throw_if (negb (isNpmPackageInfo data))
    (mkError "Invalid package info format") ;;;
  data_versions <- lift (prop (Some data) "versions") ;;
  versions <- lift (Object_keys data_versions) ;;
  dist_tags <- lift (prop (Some data) "dist-tags") ;;
  let latestVersion := opt_prop dist_tags "latest" in
  ret (VersionsSuccess pkg versions latestVersion).

Definition versions_item (pkg : string) : Async VersionsResult :=
  try_catch (versions_try pkg)
    (fun error => ret (VersionsFailure pkg (message error))).

(** The callback of [results.map(..)]: the template literal converts
    [result.latest], whatever the registry put there, to a string. *)
Definition versions_text (result : VersionsResult) : Error + TextContent :=
  match result with
  | VersionsSuccess name versions latest =>
      latest_text <-! str latest ;;
      inr (mkText ("📦 " ++ name ++ ":" ++ nl
                   ++ "Latest version: " ++ latest_text ++ nl
                   ++ "Available versions: " ++ String.concat ", " versions))
  | VersionsFailure name error =>
      inr (mkText ("❌ Error fetching " ++ name ++ ": " ++ error))
  end.

(** The [results.map(..)] that renders the entries runs after the items
    have settled, outside their [try]: what it throws rejects the call. *)
Definition handleNpmVersions (packages : list string) : Async CallToolResult :=
  results <- Promise.all (map versions_item packages) ;;
  content <- lift (map_throwing versions_text results) ;;
  ret (mkResult content false).

(** *** npmLatest: [handleNpmLatest], lines 634-687 *)

Definition latest_try (pkg : string) : Async LatestResult :=
  response <- fetch ("https://registry.npmjs.org/" ++ pkg ++ "/latest") sentinel_headers ;;
  throw_if (negb (ok response))
    (mkError ("Failed to fetch latest version: " ++ statusText response)) ;;;
  data <- json response ;;
  let latestInfo := Some data in
  version <- lift (prop latestInfo "version") ;;
  description <- lift (prop latestInfo "description") ;;
  author <- lift (prop latestInfo "author") ;;
  license <- lift (prop latestInfo "license") ;;
  homepage <- lift (prop latestInfo "homepage") ;;
  ret (LatestSuccess pkg version description (opt_prop author "name")
         license homepage).

Definition latest_item (pkg : string) : Async LatestResult :=
  try_catch (latest_try pkg)
    (fun err => ret (LatestFailure pkg (message err))).

(** [${v || fallback}] *)
Definition str_or (v : Value) (fallback : string) : Error + string :=
  if truthy v then str v else inr fallback.

Definition latest_text (result : LatestResult) : Error + TextContent :=
  match result with
  | LatestSuccess name version description author license homepage =>
      version_text <-! str version ;;
      description_text <-! str_or description "No description available" ;;
      author_text <-! str_or author "Unknown" ;;
      license_text <-! str_or license "Unknown" ;;
      homepage_text <-! str_or homepage "Not specified" ;;
      inr (mkText ("📦 Latest version of " ++ name ++ ":" ++ nl
                   ++ "Version: " ++ version_text ++ nl
                   ++ "Description: " ++ description_text ++ nl
                   ++ "Author: " ++ author_text ++ nl
                   ++ "License: " ++ license_text ++ nl
                   ++ "Homepage: " ++ homepage_text ++ nl
                   ++ "---"))
  | LatestFailure name error =>
      inr (mkText ("❌ Error fetching latest version for " ++ name ++ ": " ++ error))
  end.

Definition handleNpmLatest (packages : list string) : Async CallToolResult :=
  results <- Promise.all (map latest_item packages) ;;
  content <- lift (map_throwing latest_text results) ;;
  ret (mkResult content false).

(** *** npmDeps: [handleNpmDeps], lines 689-777 *)

(** [record ?? {}] *)
Definition record_or_empty (r : option (list (string * string)))
  : list (string * string) :=
  match r with
  | Some entries => entries
  | None => []
  end.

Definition deps_try (pkg : string) : Async DepsResult :=
  response <- fetch ("https://registry.npmjs.org/" ++ pkg ++ "/latest") sentinel_headers ;;
  if negb (ok response) then
    ret (DepsFailure pkg ("Failed to fetch package info: " ++ statusText response))
  else
    rawData <- json response ;;
    match NpmPackageDataSchema (Some rawData) with
    | None => ret (DepsFailure pkg "Invalid package data received")
    | Some d =>
        ret (DepsSuccess pkg (NpmPackageData.version d)
               (record_or_empty (NpmPackageData.dependencies d))
               (record_or_empty (NpmPackageData.devDependencies d))
               (record_or_empty (NpmPackageData.peerDependencies d)))
    end.

Definition deps_item (pkg : string) : Async DepsResult :=
  try_catch (deps_try pkg)
    (fun error => ret (DepsFailure pkg (message error))).

(** One block of the dependency report: nothing for an empty record. *)
Definition deps_block (title : string) (deps : list (string * string)) : string :=
  if Nat.ltb 0 (length deps) then
    title ++ nl
    ++ String.concat "" (map (fun dv => "• " ++ fst dv ++ ": " ++ snd dv ++ nl) deps)
    ++ nl
  else "".

Definition deps_section (result : DepsResult) : string :=
  match result with
  | DepsFailure name error => "❌ " ++ name ++ ": " ++ error ++ nl ++ nl
  | DepsSuccess name version dependencies devDependencies peerDependencies =>
      "📦 Dependencies for " ++ name ++ "@" ++ version ++ nl ++ nl
      ++ deps_block "Dependencies:" dependencies
      ++ deps_block "Dev Dependencies:" devDependencies
      ++ deps_block "Peer Dependencies:" peerDependencies
      ++ "---" ++ nl ++ nl
  end.

(** [args.packages] is an array, so [args.packages || []] is that array. *)
Definition handleNpmDeps (packages : list string) : Async CallToolResult :=
  try_catch
    (let packagesToProcess := packages in
     throw_if (Nat.eqb (length packagesToProcess) 0)
       (mkError "No package names provided") ;;;
     results <- Promise.all (map deps_item packagesToProcess) ;;
     let text := fold_left (fun text result => text ++ deps_section result) results "" in
     ret (mkResult [mkText text] false))
    (fun error =>
       ret (mkResult
              [mkText ("Error fetching dependencies: " ++ message error)]
              true)).

(** *** npmTypes: [handleNpmTypes], lines 779-839 *)

Record TextResult : Type := mkTextResult {
  tr_name : string;
  tr_text : string
}.

(** The lines of an item that are written before its second request: the
    heading, whose template literal converts [data.version], and the path of
    the built-in types, converted likewise. *)
Definition types_opening (pkg : string) (data : JSON) : Error + (string * bool) :=
  data_version <-! prop (Some data) "version" ;;
  version_text <-! str data_version ;;
  let text := "📦 TypeScript support for " ++ pkg ++ "@" ++ version_text ++ nl in
  let types := or_else (get data "types") (get data "typings") in
  let hasTypes := truthy types in
  if hasTypes then
    types_text <-! str types ;;
    inr (text ++ "✅ Package includes built-in TypeScript types" ++ nl
              ++ "Types path: " ++ types_text ++ nl, hasTypes)
  else inr (text, hasTypes).

Definition types_item (pkg : string) : Async TextResult :=
  response <- fetch ("https://registry.npmjs.org/" ++ pkg ++ "/latest") sentinel_headers ;;
  throw_if (negb (ok response))
    (mkError ("Failed to fetch package info: " ++ statusText response)) ;;;
  data <- json response ;;
  opening <- lift (types_opening pkg data) ;;
  let text := fst opening in
  let hasTypes := snd opening in
  let typesPackage :=
    "@types/" ++ replace_first "/" "__" (replace_first "@" "" pkg) in
  typesResponse <-
    try_catch
      (r <- fetch ("https://registry.npmjs.org/" ++ typesPackage ++ "/latest")
              sentinel_headers ;;
       ret (Some r))
      (fun _ => ret None) ;;
  match typesResponse with
  | Some r =>
      if ok r then
        typesData <- json r ;;
        typesData_version <- lift (prop (Some typesData) "version") ;;
        typesData_version_text <- lift (str typesData_version) ;;
        ret (mkTextResult pkg
               (text ++ "📦 DefinitelyTyped package available: " ++ typesPackage
                     ++ "@" ++ typesData_version_text ++ nl
                     ++ "Install with: npm install -D " ++ typesPackage))
      else if negb hasTypes then
        ret (mkTextResult pkg (text ++ "❌ No TypeScript type definitions found"))
      else ret (mkTextResult pkg text)
  | None =>
      if negb hasTypes then
        ret (mkTextResult pkg (text ++ "❌ No TypeScript type definitions found"))
      else ret (mkTextResult pkg text)
  end.

(** [for (const result of results)] with the position of [result] at
    hand: every result is a fresh object, so [results.indexOf(result)] is
    its position. *)
Definition for_of_indexed {A} (results : list A)
    (body : string -> nat -> A -> string) (text : string) : string :=
  fold_left (fun text ir => body text (fst ir) (snd ir))
    (combine (seq 0 (length results)) results) text.

(** The same loop with a body that may throw. *)
Definition for_of_indexed_throwing {A} (results : list A)
    (body : string -> nat -> A -> Error + string) (text : string) : Error + string :=
  fold_throwing (fun text ir => body text (fst ir) (snd ir))
    (combine (seq 0 (length results)) results) text.

Definition handleNpmTypes (packages : list string) : Async CallToolResult :=
  try_catch
    (results <- Promise.all (map types_item packages) ;;
     let text :=
       for_of_indexed results
         (fun text index result =>
            let text := text ++ tr_text result ++ nl ++ nl in
            if Nat.ltb index (length results - 1)
            then text ++ "---" ++ nl ++ nl
            else text) "" in
     ret (mkResult [mkText text] false))
    (fun error =>
       ret (mkResult
              [mkText ("Error checking TypeScript types: " ++ message error)]
              true)).

(** *** npmTrends: [handleNpmTrends], lines 983-1079 *)

Definition valid_periods : list string := ["last-week"; "last-month"; "last-year"].

(** [args.period && [..].includes(args.period) ? args.period : 'last-month'] *)
Definition trends_period (period : option string) : string :=
  match period with
  | Some p =>
      if negb (String.eqb p "") && existsb (String.eqb p) valid_periods
      then p else "last-month"
  | None => "last-month"
  end.

Definition periodDays : list (string * positive) :=
  [("last-week", 7%positive); ("last-month", 30%positive); ("last-year", 365%positive)].

(** [periodDays[period]] *)
Fixpoint periodDays_at (table : list (string * positive)) (period : string)
  : option positive :=
  match table with
  | [] => None
  | (k, d) :: rest => if String.eqb period k then Some d else periodDays_at rest period
  end.

(** [${periodDays[period]}] *)
Definition days_text (period : string) : string :=
  match periodDays_at periodDays period with
  | Some d => int_toString (Zpos d)
  | None => "undefined"
  end.

(** [Math.round(n / periodDays[period])]: the quotient is a binary64
    number before it is rounded to an integer; a period without days
    divides by [undefined]. *)
Definition daily_average (n : Number) (period : string) : Number :=
  match periodDays_at periodDays period with
  | Some d => Math_round (Binary64.div n d)
  | None => NaN
  end.

(** [Math.round(n / periodDays[period]).toLocaleString()] *)
Definition daily_average_text (n : Number) (period : string) : string :=
  toLocaleString (daily_average n period).

Inductive TrendsResult : Type :=
| TrendsSuccess (name : string) (downloads : Number)
| TrendsFailure (name : string) (error : string).

Definition trends_item (period pkg : string) : Async TrendsResult :=
  response <- fetch ("https://api.npmjs.org/downloads/point/" ++ period ++ "/" ++ pkg)
                sentinel_headers ;;
  if negb (ok response) then
    ret (TrendsFailure pkg ("Failed to fetch download trends: " ++ statusText response))
  else
    data <- json response ;;
    match NpmDownloadsDataSchema (Some data) with
    | None => ret (TrendsFailure pkg "Invalid response format from npm downloads API")
    | Some d => ret (TrendsSuccess pkg (NpmDownloadsData.downloads d))
    end.

Definition trends_section (period : string) (result : TrendsResult) : string :=
  match result with
  | TrendsFailure name error => "❌ " ++ name ++ ": " ++ error ++ nl
  | TrendsSuccess name downloads =>
      "📦 " ++ name ++ nl
      ++ "Total downloads: " ++ toLocaleString downloads ++ nl
      ++ "Average daily downloads: " ++ daily_average_text downloads period ++ nl ++ nl
  end.

(** [results.reduce((total, result) => .., 0)] *)
Definition trends_total (results : list TrendsResult) : Number :=
  fold_left (fun total result =>
               match result with
               | TrendsSuccess _ downloads => Binary64.add total downloads
               | TrendsFailure _ _ => total
               end) results (Finite 0).

Definition handleNpmTrends (packages : list string) (period_arg : option string)
  : Async CallToolResult :=
  try_catch
    (let period := trends_period period_arg in
     results <- Promise.all (map (trends_item period) packages) ;;
     let text := "📈 Download Trends" ++ nl ++ nl in
     let text := text ++ "Period: " ++ period ++ " (" ++ days_text period ++ " days)"
                      ++ nl ++ nl in
     let text := fold_left (fun text result => text ++ trends_section period result)
                   results text in
     let totalDownloads := trends_total results in
     let text := text ++ "Total downloads across all packages: "
                      ++ toLocaleString totalDownloads ++ nl in
     let text := text ++ "Average daily downloads across all packages: "
                      ++ daily_average_text totalDownloads period ++ nl in
     ret (mkResult [mkText text] false))
    (fun error =>
       ret (mkResult
              [mkText ("Error fetching download trends: " ++ message error)]
              true)).

(** *** npmCompare: [handleNpmCompare], lines 1081-1130 *)

Record CompareResult : Type := mkCompare {
  cmp_name : string;
  cmp_version : string;
  cmp_description : option string;
  cmp_downloads : Number;
  cmp_license : option string;
  cmp_dependencies : nat
}.

Definition compare_item (pkg : string) : Async CompareResult :=
  responses <- Promise.both
                 (fetch ("https://registry.npmjs.org/" ++ pkg ++ "/latest") no_headers)
                 (fetch ("https://api.npmjs.org/downloads/point/last-month/" ++ pkg)
                    no_headers) ;;
  let infoRes := fst responses in
  let downloadsRes := snd responses in
  throw_if (negb (ok infoRes) || negb (ok downloadsRes))
    (mkError ("Failed to fetch data for " ++ pkg)) ;;;
  info <- json infoRes ;;
  downloads <- json downloadsRes ;;
  match NpmPackageDataSchema (Some info), NpmDownloadsDataSchema (Some downloads) with
  | Some i, Some d =>
      ret (mkCompare pkg (NpmPackageData.version i) (NpmPackageData.description i)
             (NpmDownloadsData.downloads d) (NpmPackageData.license i)
             (match NpmPackageData.dependencies i with
              | Some deps => length deps
              | None => 0
              end))
  | _, _ => throw (mkError ("Invalid response format for " ++ pkg))
  end.

(** [${s || fallback}] on an optional string *)
Definition string_or (s : option string) (fallback : string) : string :=
  match s with
  | Some x => if String.eqb x "" then fallback else x
  | None => fallback
  end.

Definition compare_row (pkg : CompareResult) : string :=
  cmp_name pkg ++ " | " ++ cmp_version pkg ++ " | "
  ++ toLocaleString (cmp_downloads pkg) ++ " | "
  ++ nat_toString (cmp_dependencies pkg) ++ " | "
  ++ string_or (cmp_license pkg) "N/A" ++ nl.

Definition handleNpmCompare (packages : list string) : Async CallToolResult :=
  try_catch
    (results <- Promise.all (map compare_item packages) ;;
     let text := "📊 Package Comparison" ++ nl ++ nl in
     let text := text ++ "Package | Version | Monthly Downloads | Dependencies | License" ++ nl in
     let text := text ++ "--------|---------|------------------|--------------|--------" ++ nl in
     let text := fold_left (fun text pkg => text ++ compare_row pkg) results text in
     ret (mkResult [mkText text] false))
    (fun error =>
       ret (mkResult [mkText ("Error comparing packages: " ++ message error)] true)).

(** *** npmPackageReadme: [handleNpmPackageReadme], lines 1427-1483 *)

Record ReadmeResult : Type := mkReadme {
  rd_name : string;
  rd_version : Value;
  rd_text : Value
}.

Definition readme_item (pkg : string) : Async ReadmeResult :=
  response <- fetch ("https://registry.npmjs.org/" ++ pkg) no_headers ;;
  throw_if (negb (ok response))
    (mkError ("Failed to fetch package info: " ++ statusText response)) ;;;
  rawData <- json response ;;
  throw_if (negb (isNpmPackageInfo rawData))
    (mkError "Invalid package info data received") ;;;
  dist_tags <- lift (prop (Some rawData) "dist-tags") ;;
  let latestVersion := opt_prop dist_tags "latest" in
  throw_if (negb (truthy latestVersion)) (mkError "No latest version found") ;;;
  match get rawData "versions" with
  | None | Some JNull => throw (mkError "No latest version found")
  | Some versions =>
      (* the computed key [versions[latestVersion]] is converted to a string *)
      key <- lift (str latestVersion) ;;
      let entry := get versions key in
      throw_if (negb (truthy entry)) (mkError "No latest version found") ;;;
      entry_readme <- lift (prop entry "readme") ;;
      let readme := or_else entry_readme (get rawData "readme") in
      if negb (truthy readme) then
        ret (mkReadme pkg latestVersion (Some (JStr "No README found")))
      else
        ret (mkReadme pkg latestVersion readme)
  end.

Definition handleNpmPackageReadme (packages : list string) : Async CallToolResult :=
  try_catch
    (results <- Promise.all (map readme_item packages) ;;
     text <-
       lift (for_of_indexed_throwing results
               (fun text index result =>
                  let text := text ++ repeat_string "=" 80 ++ nl in
                  version_text <-! str (rd_version result) ;;
                  let text := text ++ "📖 " ++ rd_name result ++ "@" ++ version_text ++ nl in
                  let text := text ++ repeat_string "=" 80 ++ nl ++ nl in
                  readme_text <-! str (rd_text result) ;;
                  let text := text ++ readme_text in
                  inr (if Nat.ltb index (length results - 1)
                       then text ++ nl ++ nl ++ repeat_string "=" 80 ++ nl ++ nl
                       else text)) "") ;;
     ret (mkResult [mkText text] false))
    (fun error =>
       ret (mkResult [mkText ("Error fetching READMEs: " ++ message error)] true)).

(** *** npmSearch: [handleNpmSearch], lines 1485-1546 *)

(** [args.limit || 10]: an omitted limit and a falsy number give 10. *)
Definition search_limit (limit : option Number) : Number :=
  match limit with
  | Some n => if Number_falsy n then Finite 10 else n
  | None => Finite 10
  end.

Definition search_url (query : string) (limit : option Number) : string :=
  "https://registry.npmjs.org/-/v1/search?text=" ++ encodeURIComponent query
  ++ "&size=" ++ num (search_limit limit).

Definition search_header (query : string) (limit : option Number) (total : Number)
  : string :=
  "🔍 Search results for " ++ dquote ++ query ++ dquote ++ nl
  ++ "Found " ++ toLocaleString total ++ " packages (showing top "
  ++ num (search_limit limit) ++ ")" ++ nl ++ nl.

(** [if (s) text += prefix + s + '\n'] on an optional string *)
Definition line_if (prefix : string) (s : option string) : string :=
  match s with
  | Some x => if String.eqb x "" then "" else prefix ++ x ++ nl
  | None => ""
  end.

Definition search_entry (result : SearchResult.Entry) : string :=
  let pkg := SearchResult.package result in
  let score := SearchResult.score result in
  let text := "📦 " ++ SearchResult.name pkg ++ "@" ++ SearchResult.version pkg ++ nl in
  let text := text ++ line_if "" (SearchResult.description pkg) in
  let normalizedScore := Math_min_1 (Binary64.div (SearchResult.final score) 100) in
  let finalScore := toFixed 2 normalizedScore in
  let text := text ++ "Score: " ++ finalScore ++ " ("
                   ++ toFixed 0 (Binary64.mul normalizedScore 100) ++ "%)" ++ nl in
  let text :=
    match SearchResult.keywords pkg with
    | Some keywords =>
        if Nat.ltb 0 (length keywords)
        then text ++ "Keywords: " ++ String.concat ", " keywords ++ nl
        else text
    | None => text
    end in
  let text :=
    match SearchResult.links pkg with
    | Some links =>
        text ++ "Links:" ++ nl
             ++ line_if "• NPM: " (SearchResult.npm links)
             ++ line_if "• Homepage: " (SearchResult.homepage links)
             ++ line_if "• Repository: " (SearchResult.repository links)
    | None => text
    end in
  text ++ nl.

Definition handleNpmSearch (query : string) (limit : option Number)
  : Async CallToolResult :=
  try_catch
    (response <- fetch (search_url query limit) no_headers ;;
     throw_if (negb (ok response))
       (mkError ("Failed to search packages: " ++ statusText response)) ;;;
     rawData <- json response ;;
     match NpmSearchResultSchema (Some rawData) with
     | None => throw (mkError "Invalid search results data received")
     | Some parsed =>
         let text := search_header query limit (SearchResult.total parsed) in
         let text := fold_left (fun text result => text ++ search_entry result)
                       (SearchResult.objects parsed) text in
         ret (mkResult [mkText text] false)
     end)
    (fun error =>
       ret (mkResult [mkText ("Error searching packages: " ++ message error)] true)).

End Handlers.

(** ** The tool registry *)

Module Registry.

(** A registered tool, as [server.tool(name, description, shape, callback)]
    declares it: the shape is the zod object schema of the arguments and
    the callback hands the parsed arguments to the handler. *)
Record ToolDescriptor : Type := mkTool {
  tool_name : string;
  tool_description : string;
  tool_args : Type;
  tool_schema : Zod.Schema tool_args;
  tool_handler : tool_args -> Async CallToolResult
}.

Inductive DispatchError : Type :=
| UnknownTool
| SchemaMismatch.

(** What a dispatch did: the handlers it invoked, by tool name, and what it
    answered. *)
Record Dispatched : Type := mkDispatched {
  invoked : list string;
  answer : DispatchError + Async CallToolResult
}.

Definition lookup (registry : list ToolDescriptor) (name : string)
  : option ToolDescriptor :=
  find (fun t => String.eqb (tool_name t) name) registry.

(** [list()] *)
Definition list_tools (registry : list ToolDescriptor) : list (string * string) :=
  map (fun t => (tool_name t, tool_description t)) registry.

(** Modelled from the spec: the request router of the protocol SDK
    ([McpServer.tool] and [Server.setRequestHandler]), which this repository
    calls and which is not among its sources.  [dispatch(name, args)] fails
    with [UnknownTool] if the name is absent, fails with [SchemaMismatch] if
    the arguments do not satisfy the declared schema, before invoking the
    handler, and otherwise invokes the handler on the parsed arguments. *)
Definition dispatch (registry : list ToolDescriptor) (name : string) (args : Value)
  : Dispatched :=
  match lookup registry name with
  | None => mkDispatched [] (inl UnknownTool)
  | Some t =>
      match tool_schema t args with
      | None => mkDispatched [] (inl SchemaMismatch)
      | Some parsed => mkDispatched [tool_name t] (inr (tool_handler t parsed))
      end
  end.

(** [{ packages: z.array(z.string()) }] *)
Definition packages_shape : Zod.Schema (list string) :=
  Zod.object_ (fun o => Zod.field (Zod.array Zod.string_) "packages" o).

(** [z.enum([..]).optional().default('last-month')] *)
Definition period_schema : Zod.Schema string :=
  fun v => match v with
           | None => Some "last-month"
           | Some (JStr s) =>
               if existsb (String.eqb s) ["last-week"; "last-month"; "last-year"]
               then Some s else None
           | Some _ => None
           end.

Definition trends_shape : Zod.Schema (list string * string) :=
  Zod.object_ (fun o =>
    packages <-? Zod.field (Zod.array Zod.string_) "packages" o ;;
    period <-? Zod.field period_schema "period" o ;;
    Some (packages, period)).

(** [z.number().min(1).max(50).optional()] *)
Definition limit_schema : Zod.Schema (option Number) :=
  Zod.optional (fun v =>
    match Zod.number v with
    | Some (Finite q) => if Qle_bool 1 q && Qle_bool q 50 then Some (Finite q) else None
    | _ => None
    end).

Definition search_shape : Zod.Schema (string * option Number) :=
  Zod.object_ (fun o =>
    query <-? Zod.field Zod.string_ "query" o ;;
    limit <-? Zod.field limit_schema "limit" o ;;
    Some (query, limit)).

Section Tools.

Variable upstream : Upstream.
Variable fraction_toString : Q -> string.
Variable toLocaleString : Number -> string.
Variable toFixed : nat -> Number -> string.
Variable encodeURIComponent : string -> string.

(** The registrations of [src/index.ts] whose handlers are embedded above,
    in registration order. *)
Definition tools : list ToolDescriptor :=
  [ mkTool "npmVersions" "Get all available versions of an NPM package"
      (list string) packages_shape
      (handleNpmVersions upstream fraction_toString);
    mkTool "npmLatest" "Get the latest version and changelog of an NPM package"
      (list string) packages_shape
      (handleNpmLatest upstream fraction_toString);
    mkTool "npmDeps" "Analyze dependencies and devDependencies of an NPM package"
      (list string) packages_shape
      (handleNpmDeps upstream);
    mkTool "npmTypes" "Check TypeScript types availability and version for a package"
      (list string) packages_shape
      (handleNpmTypes upstream fraction_toString);
    mkTool "npmTrends" "Get download trends and popularity metrics for packages"
      (list string * string) trends_shape
      (fun args => handleNpmTrends upstream toLocaleString (fst args) (Some (snd args)));
    mkTool "npmCompare" "Compare multiple NPM packages based on various metrics"
      (list string) packages_shape
      (handleNpmCompare upstream toLocaleString);
    mkTool "npmPackageReadme" "Get the README content for NPM packages"
      (list string) packages_shape
      (handleNpmPackageReadme upstream fraction_toString);
    mkTool "npmSearch" "Search for NPM packages with optional limit"
      (string * option Number) search_shape
      (fun args => handleNpmSearch upstream fraction_toString toLocaleString toFixed
                     encodeURIComponent
                     (fst args) (snd args)) ].

End Tools.

End Registry.

(** ** Vocabulary of the properties *)

(** A computation that issues no request. *)
Definition quiet {A} (p : Async A) : Prop := requests p = [].

(** Why the request of an item can fail before any payload is read: the
    fetch rejects, or the status is not OK.  The last index is the reason
    the handler reports, [prefix] being its wording for a bad status. *)
Inductive fetch_failure (upstream : Upstream) (req : Request) (prefix : string)
  : string -> Prop :=
| failed_fetch (e : Error) :
    upstream req = inl e ->
    fetch_failure upstream req prefix (message e)
| bad_status (resp : Response) :
    upstream req = inr resp -> ok resp = false ->
    fetch_failure upstream req prefix (prefix ++ statusText resp).

(** The request answered with a payload that parsed as JSON. *)
Definition payload (upstream : Upstream) (req : Request) (data : JSON) : Prop :=
  exists resp, upstream req = inr resp /\ ok resp = true /\ body resp = inr data.

Definition registry_request (pkg : string) : Request :=
  mkRequest ("https://registry.npmjs.org/" ++ pkg) sentinel_headers.

Definition latest_request (pkg : string) : Request :=
  mkRequest ("https://registry.npmjs.org/" ++ pkg ++ "/latest") sentinel_headers.

Definition downloads_request (period pkg : string) : Request :=
  mkRequest ("https://api.npmjs.org/downloads/point/" ++ period ++ "/" ++ pkg)
    sentinel_headers.

Definition bare (req : Request) : Request := mkRequest (url req) no_headers.

(** The second request of an npmTypes item, for the DefinitelyTyped
    package. *)
Definition types_lookup_request (pkg : string) : Request :=
  mkRequest ("https://registry.npmjs.org/@types/"
             ++ replace_first "/" "__" (replace_first "@" "" pkg) ++ "/latest")
    sentinel_headers.

(** An npmTypes item gets as far as its second request when the first one
    is answered OK with a JSON payload from which the opening lines of its
    section can be written: a payload other than [null] whose [version], and
    whose path of built-in types if it has one, convert to strings. *)
Definition types_reads_manifest (fraction_toString : Q -> string)
    (upstream : Upstream) (pkg : string) : bool :=
  match upstream (latest_request pkg) with
  | inr resp =>
      ok resp && match body resp with
                 | inr data =>
                     match types_opening fraction_toString pkg data with
                     | inr _ => true
                     | inl _ => false
                     end
                 | inl _ => false
                 end
  | inl _ => false
  end.

(** What the async function of one item resolves to. *)
Definition versions_result (upstream : Upstream) (pkg : string) : VersionsResult :=
  recover (versions_try upstream pkg) (fun e => VersionsFailure pkg (message e)).

Definition latest_result (upstream : Upstream) (pkg : string) : LatestResult :=
  recover (latest_try upstream pkg) (fun e => LatestFailure pkg (message e)).

Definition deps_result (upstream : Upstream) (pkg : string) : DepsResult :=
  recover (deps_try upstream pkg) (fun e => DepsFailure pkg (message e)).

Definition VersionsResult_name (r : VersionsResult) : string :=
  match r with
  | VersionsSuccess name _ _ | VersionsFailure name _ => name
  end.

Definition LatestResult_name (r : LatestResult) : string :=
  match r with
  | LatestSuccess name _ _ _ _ _ | LatestFailure name _ => name
  end.

(** The delimiter between two sections of the npmTypes report. *)
Definition types_delimiter : string := "---" ++ nl ++ nl.

(** The top-level error response of a handler whose [catch] wraps the
    message of what was thrown. *)
Definition error_response (prefix : string) (e : Error) : CallToolResult :=
  mkResult [mkText (prefix ++ message e)] true.

(** What the string conversion of an object with an own [toString] throws. *)
Definition conversion_error : Error :=
  TypeError "Cannot convert object to primitive value".

(** The fields of a successful npmLatest entry all convert to strings: the
    version, and each of the others when it is truthy. *)
Definition latest_printable (fraction_toString : Q -> string) (r : LatestResult) : bool :=
  let shown v := negb (truthy v) || printable fraction_toString v in
  match r with
  | LatestSuccess _ version description author license homepage =>
      printable fraction_toString version
      && shown description && shown author && shown license && shown homepage
  | LatestFailure _ _ => true
  end.






(** An example host and an example registry: it knows the package
    [express] and answers every other name with 404, but for a payload that
    is not an object for [broken], a document out of shape for [odd], one
    whose latest tag is an object with a [toString] of its own for [exotic],
    and the downloads of [huge]. *)
Module Example.

Definition print_fraction (q : Q) : string := "0.5".
Definition print_locale (n : Number) : string := Number_toString print_fraction n.
Definition print_fixed (digits : nat) (n : Number) : string :=
  Number_toString print_fraction n.
Definition encode (s : string) : string := s.

Definition express_manifest : JSON :=
  JObj [("name", JStr "express"); ("version", JStr "4.18.2");
        ("license", JStr "MIT");
        ("dependencies", JObj [("accepts", JStr "~1.3.8")])].

Definition express_packument : JSON :=
  JObj [("name", JStr "express");
        ("dist-tags", JObj [("latest", JStr "4.18.2")]);
        ("versions",
          JObj [("4.18.1", JObj [("name", JStr "express")]);
                ("4.18.2", JObj [("name", JStr "express");
                                 ("readme", JStr "Fast, unopinionated web framework")])])].

Definition express_downloads : JSON :=
  JObj [("downloads", JNum 45); ("start", JStr "2025-01-01");
        ("end", JStr "2025-01-30"); ("package", JStr "express")].

Definition express_types : JSON :=
  JObj [("name", JStr "@types/express"); ("version", JStr "4.17.21")].

Definition search_hits : JSON :=
  JObj [("objects",
          JArr [JObj [("package", JObj [("name", JStr "express");
                                        ("version", JStr "4.18.2")]);
                      ("score", JObj [("final", JNum 50);
                                      ("detail", JObj [("quality", JNum 1);
                                                       ("popularity", JNum 1);
                                                       ("maintenance", JNum 1)])]);
                      ("searchScore", JNum 1)]]);
        ("total", JNum 1)].

(** Neither a name nor tags, and versions that are a string. *)
Definition odd_packument : JSON :=
  JObj [("dist-tags", JNull); ("versions", JStr "ab")].

Definition exotic_packument : JSON :=
  JObj [("name", JStr "exotic");
        ("dist-tags", JObj [("latest", JObj [("toString", JNull)])]);
        ("versions", JObj [])].

Definition exotic_manifest : JSON :=
  JObj [("name", JStr "exotic"); ("version", JObj [("toString", JNull)])].

Definition huge_downloads : JSON :=
  JObj [("downloads", JNum 7881299347898371); ("start", JStr "2025-01-01");
        ("end", JStr "2025-01-07"); ("package", JStr "huge")].

Definition served : list (string * JSON) :=
  [("https://registry.npmjs.org/express", express_packument);
   ("https://registry.npmjs.org/odd", odd_packument);
   ("https://registry.npmjs.org/exotic", exotic_packument);
   ("https://registry.npmjs.org/exotic/latest", exotic_manifest);
   ("https://api.npmjs.org/downloads/point/last-week/huge", huge_downloads);
   ("https://registry.npmjs.org/express/latest", express_manifest);
   ("https://registry.npmjs.org/@types/express/latest", express_types);
   ("https://api.npmjs.org/downloads/point/last-month/express", express_downloads);
   ("https://api.npmjs.org/downloads/point/last-week/express", express_downloads);
   ("https://registry.npmjs.org/broken", JStr "oops");
   ("https://registry.npmjs.org/-/v1/search?text=express&size=10", search_hits)].

Definition not_found : Response :=
  mkResponse 404 "Not Found" (inr (JObj [("error", JStr "Not found")])).

Definition registry : Upstream :=
  fun req =>
    match assoc (url req) served with
    | Some data => inr (mkResponse 200 "OK" (inr data))
    | None => inr not_found
    end.

(** No network at all: every fetch rejects. *)
Definition offline : Upstream :=
  fun _ => inl (mkError "request to registry failed, reason: ENOTFOUND").

End Example.

(** * Properties *)

(** ** Promises *)

Lemma requests_bind {A B} (p : Async A) (k : A -> Async B) :
  requests (bind p k) =
  (requests p ++ match settled p with
                 | Fulfilled a => requests (k a)
                 | Rejected _ => []
                 end)%list.
Proof.
  destruct p as [l [a | e]]; simpl.
  - destruct (k a); reflexivity.
  - now rewrite app_nil_r.
Qed.

Lemma settled_bind {A B} (p : Async A) (k : A -> Async B) :
  settled (bind p k) =
  match settled p with
  | Fulfilled a => settled (k a)
  | Rejected e => Rejected e
  end.
Proof.
  destruct p as [l [a | e]]; simpl; [destruct (k a)|]; reflexivity.
Qed.

Lemma requests_try_catch {A} (p : Async A) (h : Error -> Async A) :
  requests (try_catch p h) =
  (requests p ++ match settled p with
                 | Fulfilled _ => []
                 | Rejected e => requests (h e)
                 end)%list.
Proof.
  destruct p as [l [a | e]]; simpl.
  - now rewrite app_nil_r.
  - destruct (h e); reflexivity.
Qed.

Lemma settled_try_catch {A} (p : Async A) (h : Error -> Async A) :
  settled (try_catch p h) =
  match settled p with
  | Fulfilled a => Fulfilled a
  | Rejected e => settled (h e)
  end.
Proof.
  destruct p as [l [a | e]]; simpl; [|destruct (h e)]; reflexivity.
Qed.

Lemma requests_both {A B} (p : Async A) (q : Async B) :
  requests (Promise.both p q) = (requests p ++ requests q)%list.
Proof. reflexivity. Qed.

Lemma settled_both {A B} (p : Async A) (q : Async B) :
  settled (Promise.both p q) =
  match settled p, settled q with
  | Rejected e, _ => Rejected e
  | Fulfilled _, Rejected e => Rejected e
  | Fulfilled a, Fulfilled b => Fulfilled (a, b)
  end.
Proof. reflexivity. Qed.

Lemma requests_all {A} (ps : list (Async A)) :
  requests (Promise.all ps) = concat (map requests ps).
Proof.
  induction ps as [| [l s] ps IH]; simpl; [reflexivity|].
  destruct (Promise.all ps) as [l' s']; simpl in *. now rewrite IH.
Qed.

Lemma settled_all_fulfilled {A B} (f : A -> Async B) (g : A -> B) (l : list A) :
  (forall x, In x l -> settled (f x) = Fulfilled (g x)) ->
  settled (Promise.all (map f l)) = Fulfilled (map g l).
Proof.
  induction l as [| x l IH]; intros H; simpl; [reflexivity|].
  destruct (f x) as [r s] eqn:Hx.
  destruct (Promise.all (map f l)) as [r' s'] eqn:Hall; simpl in *.
  assert (Hs : s = Fulfilled (g x)).
  { specialize (H x (or_introl eq_refl)). now rewrite Hx in H. }
  rewrite IH in * by (intros; apply H; now right). subst. reflexivity.
Qed.

Lemma settled_all_rejected {A} (ps : list (Async A)) (p : Async A) (e : Error) :
  In p ps -> settled p = Rejected e ->
  exists p' e', In p' ps /\ settled p' = Rejected e'
                /\ settled (Promise.all ps) = Rejected e'.
Proof.
  induction ps as [| [l s] ps IH]; simpl; [contradiction|].
  intros [<- | Hin] He.
  - simpl in He. subst. destruct (Promise.all ps).
    exists (l, Rejected e), e. simpl. auto.
  - destruct (IH Hin He) as (p' & e' & Hin' & Hp' & He').
    destruct (Promise.all ps) as [l' s']; simpl in *. subst.
    destruct s as [a | e0].
    + exists p', e'. auto.
    + exists (l, Rejected e0), e0. auto.
Qed.


Lemma try_catch_ret {A} (p : Async A) (h : Error -> A) :
  try_catch p (fun e => ret (h e)) = (requests p, Fulfilled (recover p h)).
Proof.
  destruct p as [l [a | e]]; unfold recover; simpl; [reflexivity|].
  now rewrite app_nil_r.
Qed.

(** Running a list of items whose [catch] returns: every item yields its
    own value, in order, and the requests are those of the items. *)
Lemma all_recovering {A B} (f : A -> Async B) (h : A -> Error -> B) (l : list A) :
  Promise.all (map (fun x => try_catch (f x) (fun e => ret (h x e))) l) =
  (concat (map (fun x => requests (f x)) l),
   Fulfilled (map (fun x => recover (f x) (h x)) l)).
Proof.
  induction l as [| x l IH]; simpl; [reflexivity|].
  rewrite try_catch_ret, IH. reflexivity.
Qed.

Lemma concat_map_singleton {A B} (f : A -> B) (l : list A) :
  concat (map (fun x => [f x]) l) = map f l.
Proof. induction l; simpl; congruence. Qed.

(** ** Text *)

Lemma append_nil_r (s : string) : s ++ "" = s.
Proof. induction s; simpl; congruence. Qed.

Lemma append_assoc (a b c : string) : (a ++ b) ++ c = a ++ (b ++ c).
Proof. induction a; simpl; congruence. Qed.

(** A [for] loop that appends one piece per element builds the
    concatenation of the pieces, in order. *)
Lemma fold_left_append {A} (f : A -> string) (l : list A) (init : string) :
  fold_left (fun text x => text ++ f x) l init = init ++ String.concat "" (map f l).
Proof.
  revert init. induction l as [| x l IH]; intros init; simpl.
  - now rewrite append_nil_r.
  - rewrite IH, append_assoc. f_equal.
    destruct l; simpl; [now rewrite !append_nil_r | reflexivity].
Qed.

(** ** Arithmetic in binary64 *)

Section Binary64Facts.
Import Binary64.


































End Binary64Facts.

(** ** Steps that may throw *)

Lemma map_throwing_all {A B} (f : A -> Error + B) (g : A -> B) (l : list A) :
  (forall x, In x l -> f x = inr (g x)) -> map_throwing f l = inr (map g l).
Proof.
  induction l as [| x l IH]; intros H; simpl; [reflexivity|].
  rewrite (H x) by now left. rewrite IH; [reflexivity|].
  intros y Hy. apply H. now right.
Qed.

Lemma map_throwing_inv {A B} (f : A -> Error + B) (l : list A) (ys : list B) :
  map_throwing f l = inr ys <-> Forall2 (fun x y => f x = inr y) l ys.
Proof.
  revert ys. induction l as [| x l IH]; intros ys; simpl.
  - split; [intros [= <-]; constructor | intros H; inversion H; reflexivity].
  - destruct (f x) as [e | y] eqn:Hx.
    + split; [discriminate | intros H; inversion H; congruence].
    + destruct (map_throwing f l) as [e | ys'] eqn:Hl.
      * split; [discriminate|]. intros H. inversion H; subst.
        assert (Habs : @inl Error (list B) e = inr l') by now apply IH.
        discriminate.
      * split.
        -- intros [= <-]. constructor; [assumption | now apply IH].
        -- intros H. inversion H; subst.
           assert (Heq : @inr Error (list B) ys' = inr l') by now apply IH.
           congruence.
Qed.

Lemma map_throwing_throws {A B} (f : A -> Error + B) (l : list A) (x : A) (e : Error) :
  In x l -> f x = inl e -> exists e', map_throwing f l = inl e'.
Proof.
  induction l as [| y l IH]; simpl; [contradiction|].
  intros [-> | Hin] Hx.
  - rewrite Hx. eauto.
  - destruct (f y); [eauto|]. destruct (IH Hin Hx) as [e' ->]. eauto.
Qed.

Lemma Forall2_length_eq {A B} (P : A -> B -> Prop) (l : list A) (l' : list B) :
  Forall2 P l l' -> length l = length l'.
Proof. induction 1; simpl; congruence. Qed.

Lemma Forall2_map_left_iff {A B C} (P : B -> C -> Prop) (f : A -> B) l rs :
  Forall2 P (map f l) rs <-> Forall2 (fun x r => P (f x) r) l rs.
Proof.
  revert rs. induction l as [| x l IH]; intros rs; simpl.
  - split; intros H; inversion H; constructor.
  - split; intros H; inversion H; subst; constructor; auto; now apply IH.
Qed.

#[local] Arguments String.append : simpl never.
#[local] Arguments NpmPackageDataSchema : simpl never.
#[local] Arguments NpmDownloadsDataSchema : simpl never.
#[local] Arguments NpmSearchResultSchema : simpl never.
#[local] Arguments isNpmPackageInfo : simpl never.
#[local] Arguments JS.prop : simpl never.
#[local] Arguments JS.opt_prop : simpl never.
#[local] Arguments JS.get : simpl never.
#[local] Arguments JS.Object_keys : simpl never.
#[local] Arguments JS.truthy : simpl never.
#[local] Arguments JS.toString : simpl never.
#[local] Arguments JS.JSON_toString : simpl never.

Ltac break_inner x :=
  lazymatch x with
  | context [match ?y with _ => _ end] => break_inner y
  | _ => destruct x eqn:?
  end.

Ltac break_match :=
  match goal with
  | |- context [match ?x with _ => _ end] => break_inner x; simpl
  end.

Lemma quiet_bind {A B} (p : Async A) (k : A -> Async B) :
  quiet p -> (forall a, quiet (k a)) -> quiet (bind p k).
Proof.
  unfold quiet. intros Hp Hk. rewrite requests_bind, Hp.
  destruct (settled p); simpl; auto.
Qed.

Lemma quiet_ret {A} (a : A) : quiet (ret a).
Proof. reflexivity. Qed.

Lemma quiet_throw {A} (e : Error) : quiet (@throw A e).
Proof. reflexivity. Qed.

Lemma quiet_lift {A} (r : Error + A) : quiet (lift r).
Proof. destruct r; reflexivity. Qed.

Lemma quiet_throw_if c e : quiet (throw_if c e).
Proof. destruct c; reflexivity. Qed.

Lemma quiet_json r : quiet (json r).
Proof. apply quiet_lift. Qed.

Ltac quiet :=
  repeat first
    [ apply quiet_ret | apply quiet_throw | apply quiet_lift
    | apply quiet_throw_if | apply quiet_json
    | apply quiet_bind; [| intro]
    | match goal with
      | |- quiet (match ?x with _ => _ end) => destruct x
      | |- quiet (let _ := _ in _) => cbv zeta
      end ].

Lemma requests_fetch_bind {A} upstream u h (k : Response -> Async A) :
  (forall r, quiet (k r)) ->
  requests (bind (Promise.fetch upstream u h) k) = [mkRequest u h].
Proof.
  intros Hk. rewrite requests_bind. simpl.
  destruct (upstream _); [reflexivity|]. now rewrite Hk.
Qed.


(** ** Stepping through an async body *)

Lemma settled_fetch upstream u h :
  settled (Promise.fetch upstream u h) =
  match upstream (mkRequest u h) with
  | inl e => Rejected e
  | inr r => Fulfilled r
  end.
Proof. reflexivity. Qed.

Lemma settled_throw_if c e :
  settled (throw_if c e) = if c then Rejected e else Fulfilled tt.
Proof. destruct c; reflexivity. Qed.

Lemma settled_lift {A} (r : Error + A) :
  settled (lift r) = match r with inl e => Rejected e | inr a => Fulfilled a end.
Proof. destruct r; reflexivity. Qed.

Lemma settled_json r :
  settled (json r) = match body r with inl e => Rejected e | inr j => Fulfilled j end.
Proof. apply settled_lift. Qed.

Lemma settled_ret {A} (a : A) : settled (ret a) = Fulfilled a.
Proof. reflexivity. Qed.

Lemma settled_throw {A} (e : Error) : settled (@throw A e) = Rejected e.
Proof. reflexivity. Qed.

Ltac step :=
  repeat first
    [ rewrite settled_bind | rewrite settled_both | rewrite settled_fetch | rewrite settled_throw_if
    | rewrite settled_json | rewrite settled_lift | rewrite settled_ret
    | rewrite settled_throw | rewrite settled_try_catch ].

Lemma requests_fetch upstream u h :
  requests (Promise.fetch upstream u h) = [mkRequest u h].
Proof. reflexivity. Qed.

Lemma requests_throw_if c e : requests (throw_if c e) = [].
Proof. apply quiet_throw_if. Qed.

Lemma requests_lift {A} (r : Error + A) : requests (lift r) = [].
Proof. apply quiet_lift. Qed.

Lemma requests_json r : requests (json r) = [].
Proof. apply quiet_json. Qed.

Lemma requests_ret {A} (a : A) : requests (ret a) = [].
Proof. reflexivity. Qed.

Lemma requests_throw {A} (e : Error) : requests (@throw A e) = [].
Proof. reflexivity. Qed.

Ltac trace :=
  repeat first
    [ rewrite requests_bind | rewrite requests_try_catch | rewrite requests_both
    | rewrite requests_fetch
    | rewrite requests_throw_if | rewrite requests_lift | rewrite requests_json
    | rewrite requests_ret | rewrite requests_throw
    | progress step
    | progress cbn [app] ].

Ltac run_async :=
  repeat (step; try reflexivity; break_match);
  try reflexivity; try discriminate; try (step; congruence).

(** ** npmVersions, npmLatest, npmDeps: every item recovers *)

Section Recovering.
Variable upstream : Upstream.
Variable fraction_toString : Q -> string.

Lemma versions_try_requests pkg :
  requests (versions_try upstream pkg) = [registry_request pkg].
Proof. apply requests_fetch_bind. intro. quiet. Qed.

Lemma latest_try_requests pkg :
  requests (latest_try upstream pkg) = [latest_request pkg].
Proof. apply requests_fetch_bind. intro. quiet. Qed.

Lemma deps_try_requests pkg :
  requests (deps_try upstream pkg) = [latest_request pkg].
Proof. apply requests_fetch_bind. intro. quiet. Qed.

Lemma versions_fan_out packages :
  Promise.all (map (versions_item upstream) packages)
  = (map registry_request packages, Fulfilled (map (versions_result upstream) packages)).
Proof.
  unfold versions_item.
  rewrite (all_recovering (versions_try upstream)
             (fun pkg e => VersionsFailure pkg (message e))).
  f_equal. erewrite map_ext; [apply concat_map_singleton|].
  intro. apply versions_try_requests.
Qed.

Lemma latest_fan_out packages :
  Promise.all (map (latest_item upstream) packages)
  = (map latest_request packages, Fulfilled (map (latest_result upstream) packages)).
Proof.
  unfold latest_item.
  rewrite (all_recovering (latest_try upstream)
             (fun pkg e => LatestFailure pkg (message e))).
  f_equal. erewrite map_ext; [apply concat_map_singleton|].
  intro. apply latest_try_requests.
Qed.

Lemma handleNpmVersions_eq packages :
  handleNpmVersions upstream fraction_toString packages =
  (map registry_request packages,
   match map_throwing (versions_text fraction_toString)
           (map (versions_result upstream) packages) with
   | inr content => Fulfilled (mkResult content false)
   | inl e => Rejected e
   end).
Proof.
  unfold handleNpmVersions. rewrite versions_fan_out.
  cbn [bind]. destruct (map_throwing _ _); cbn; now rewrite app_nil_r.
Qed.

Lemma handleNpmLatest_eq packages :
  handleNpmLatest upstream fraction_toString packages =
  (map latest_request packages,
   match map_throwing (latest_text fraction_toString)
           (map (latest_result upstream) packages) with
   | inr content => Fulfilled (mkResult content false)
   | inl e => Rejected e
   end).
Proof.
  unfold handleNpmLatest. rewrite latest_fan_out.
  cbn [bind]. destruct (map_throwing _ _); cbn; now rewrite app_nil_r.
Qed.

Lemma handleNpmDeps_eq packages :
  packages <> [] ->
  handleNpmDeps upstream packages =
  (map latest_request packages,
   Fulfilled
     (mkResult
        [mkText (String.concat ""
                   (map (fun pkg => deps_section (deps_result upstream pkg)) packages))]
        false)).
Proof.
  intros Hne. unfold handleNpmDeps, deps_item.
  destruct packages as [| p ps]; [congruence|].
  rewrite (all_recovering (deps_try upstream)
             (fun pkg e => DepsFailure pkg (message e))).
  cbn [length Nat.eqb throw_if bind ret try_catch app].
  rewrite fold_left_append, map_map. cbn [String.append].
  rewrite app_nil_r. f_equal.
  erewrite map_ext; [apply concat_map_singleton|].
  intro. apply deps_try_requests.
Qed.

Lemma versions_result_name pkg :
  VersionsResult_name (versions_result upstream pkg) = pkg.
Proof.
  unfold versions_result, recover, versions_try. run_async.
Qed.

Lemma latest_result_name pkg :
  LatestResult_name (latest_result upstream pkg) = pkg.
Proof.
  unfold latest_result, recover, latest_try. run_async.
Qed.

Lemma versions_fetch_failure pkg reason :
  fetch_failure upstream (registry_request pkg) "Failed to fetch package info: " reason ->
  versions_result upstream pkg = VersionsFailure pkg reason.
Proof.
  unfold versions_result, recover, versions_try, registry_request.
  intros [e He | resp Hr Hok]; step; [rewrite He | rewrite Hr]; simpl; step.
  - reflexivity.
  - rewrite Hok. reflexivity.
Qed.

Lemma latest_fetch_failure pkg reason :
  fetch_failure upstream (latest_request pkg) "Failed to fetch latest version: " reason ->
  latest_result upstream pkg = LatestFailure pkg reason.
Proof.
  unfold latest_result, recover, latest_try, latest_request.
  intros [e He | resp Hr Hok]; step; [rewrite He | rewrite Hr]; simpl; step.
  - reflexivity.
  - rewrite Hok. reflexivity.
Qed.

Lemma deps_fetch_failure pkg reason :
  fetch_failure upstream (latest_request pkg) "Failed to fetch package info: " reason ->
  deps_result upstream pkg = DepsFailure pkg reason.
Proof.
  unfold deps_result, recover, deps_try, latest_request.
  intros [e He | resp Hr Hok]; step; [rewrite He | rewrite Hr]; simpl; step.
  - reflexivity.
  - rewrite Hok. reflexivity.
Qed.

Lemma versions_bad_shape pkg data :
  payload upstream (registry_request pkg) data ->
  isNpmPackageInfo data = false ->
  versions_result upstream pkg = VersionsFailure pkg "Invalid package info format".
Proof.
  unfold versions_result, recover, versions_try, registry_request.
  intros (resp & Hr & Hok & Hbody) Hshape.
  step. rewrite Hr; simpl. step. rewrite Hok; simpl. step. rewrite Hbody; simpl.
  step. rewrite Hshape. reflexivity.
Qed.

Lemma deps_bad_shape pkg data :
  payload upstream (latest_request pkg) data ->
  isNpmPackageData data = false ->
  deps_result upstream pkg = DepsFailure pkg "Invalid package data received".
Proof.
  unfold deps_result, recover, deps_try, latest_request, isNpmPackageData.
  intros (resp & Hr & Hok & Hbody) Hshape.
  step. rewrite Hr; simpl. rewrite Hok; simpl. step. rewrite Hbody; simpl.
  destruct (NpmPackageDataSchema (Some data)); [discriminate | reflexivity].
Qed.


End Recovering.

(** ** Handlers whose fan-out runs inside one [try] *)

Lemma aborted_batch {A B} (ps : list (Async A)) (k : list A -> Async B)
    (h : Error -> B) (e : Error) :
  settled (Promise.all ps) = Rejected e ->
  settled (try_catch (bind (Promise.all ps) k) (fun error => ret (h error)))
  = Fulfilled (h e).
Proof. intros H. step. rewrite H. reflexivity. Qed.

Lemma completed_batch {A B} (ps : list (Async A)) (k : list A -> B)
    (h : Error -> B) (rs : list A) :
  settled (Promise.all ps) = Fulfilled rs ->
  settled (try_catch (bind (Promise.all ps) (fun results => ret (k results)))
             (fun error => ret (h error)))
  = Fulfilled (k rs).
Proof. intros H. step. rewrite H. reflexivity. Qed.

Lemma requests_batch {A B} (ps : list (Async A)) (k : list A -> Async B)
    (h : Error -> B) :
  (forall rs, quiet (k rs)) ->
  requests (try_catch (bind (Promise.all ps) k) (fun error => ret (h error)))
  = concat (map requests ps).
Proof.
  intros Hk. rewrite requests_try_catch, requests_bind, requests_all.
  destruct (settled (Promise.all ps)) as [rs | e] eqn:Hall.
  - rewrite settled_bind, Hall, Hk.
    destruct (settled (k rs)); simpl; now rewrite !app_nil_r.
  - rewrite settled_bind, Hall. simpl. now rewrite !app_nil_r.
Qed.

Lemma batch_aborts {X A B} (f : X -> Async A) (k : list A -> Async B)
    (h : Error -> B) (xs : list X) (x : X) (e : Error) :
  In x xs -> settled (f x) = Rejected e ->
  exists x' e',
    In x' xs /\ settled (f x') = Rejected e'
    /\ settled (try_catch (bind (Promise.all (map f xs)) k)
                  (fun error => ret (h error)))
       = Fulfilled (h e').
Proof.
  intros Hin Hx.
  destruct (settled_all_rejected (map f xs) (f x) e)
    as (p' & e' & Hin' & Hp' & Hall); [now apply in_map | assumption |].
  apply in_map_iff in Hin' as (x' & <- & Hx').
  exists x', e'. repeat split; auto. now apply aborted_batch.
Qed.

Lemma error_eta (e : Error) : mkError (message e) = e.
Proof. destruct e; reflexivity. Qed.

Lemma Forall2_map_left {A B C} (P : B -> C -> Prop) (f : A -> B) l rs :
  Forall2 P (map f l) rs <-> Forall2 (fun x r => P (f x) r) l rs.
Proof.
  revert rs. induction l as [| x l IH]; intros rs; simpl.
  - split; intros H; inversion H; constructor.
  - split; intros H; inversion H; subst; constructor; auto; now apply IH.
Qed.

(** The loop that puts a delimiter after every section but the last
    builds the sections joined by the delimiter. *)
Lemma for_of_indexed_from {A} (f : A -> string) (d : string) (total : nat) :
  forall (l : list A) (k : nat) (init : string),
    total = (k + length l)%nat ->
    fold_left
      (fun text ir =>
         (fun text index result =>
            let text := text ++ f result in
            if Nat.ltb index (total - 1) then text ++ d else text)
           text (fst ir) (snd ir))
      (combine (seq k (length l)) l) init
    = init ++ String.concat d (map f l).
Proof.
  induction l as [| x l IH]; intros k init Htotal.
  - cbn. now rewrite append_nil_r.
  - cbn [length seq combine fold_left fst snd map].
    destruct l as [| y l'].
    + cbn [length] in Htotal.
      replace (Nat.ltb k (total - 1)) with false
        by (symmetry; apply Nat.ltb_ge; lia).
      reflexivity.
    + replace (Nat.ltb k (total - 1)) with true
        by (symmetry; apply Nat.ltb_lt; cbn [length] in Htotal; lia).
      rewrite IH by (cbn [length] in *; lia).
      cbn [map String.concat]. now rewrite !append_assoc.
Qed.

Lemma for_of_indexed_joined {A} (f : A -> string) (d : string) (results : list A) :
  for_of_indexed results
    (fun text index result =>
       let text := text ++ f result in
       if Nat.ltb index (length results - 1) then text ++ d else text) ""
  = String.concat d (map f results).
Proof.
  exact (for_of_indexed_from f d (length results) results 0 "" eq_refl).
Qed.

Lemma Forall2_map_right_self {A B} (P : A -> B -> Prop) (f : A -> B) (l : list A) :
  (forall x, P x (f x)) -> Forall2 P l (map f l).
Proof. intros H. induction l; simpl; constructor; auto. Qed.

Lemma Forall2_map_right_self_in {A B} (P : A -> B -> Prop) (f : A -> B) (l : list A) :
  (forall x, In x l -> P x (f x)) -> Forall2 P l (map f l).
Proof.
  induction l as [| x l IH]; intros H; simpl; constructor.
  - apply H. now left.
  - apply IH. intros y Hy. apply H. now right.
Qed.

Section Aborting.
Variable upstream : Upstream.
Variable fraction_toString : Q -> string.
Variable toLocaleString : Number -> string.

(** *** npmTypes *)

Lemma types_item_rejects pkg reason :
  fetch_failure upstream (latest_request pkg) "Failed to fetch package info: " reason ->
  settled (types_item upstream fraction_toString pkg) = Rejected (mkError reason).
Proof.
  unfold types_item, latest_request.
  intros [e He | resp Hr Hok]; step; [rewrite He | rewrite Hr]; simpl; step.
  - now rewrite error_eta.
  - rewrite Hok. reflexivity.
Qed.

Lemma handleNpmTypes_aborts packages pkg e :
  In pkg packages ->
  settled (types_item upstream fraction_toString pkg) = Rejected e ->
  exists pkg' e',
    In pkg' packages
    /\ settled (types_item upstream fraction_toString pkg') = Rejected e'
    /\ settled (handleNpmTypes upstream fraction_toString packages)
       = Fulfilled (error_response "Error checking TypeScript types: " e').
Proof.
  intros Hin Hfail. unfold handleNpmTypes.
  eapply batch_aborts; eauto.
Qed.

(** When one item alone rejects, the call carries the reason of that
    item. *)
Lemma handleNpmTypes_aborts_alone packages pkg e :
  In pkg packages ->
  settled (types_item upstream fraction_toString pkg) = Rejected e ->
  (forall other, In other packages -> other <> pkg ->
     exists section_, settled (types_item upstream fraction_toString other)
                      = Fulfilled section_) ->
  settled (handleNpmTypes upstream fraction_toString packages)
  = Fulfilled (error_response "Error checking TypeScript types: " e).
Proof.
  intros Hin Hfail Hothers.
  destruct (handleNpmTypes_aborts packages pkg e Hin Hfail)
    as (pkg' & e' & Hin' & Hfail' & ->).
  destruct (string_dec pkg' pkg) as [-> | Hne]; [congruence|].
  destruct (Hothers pkg' Hin' Hne) as [section_ Hs]. congruence.
Qed.

Lemma handleNpmTypes_joined packages (g : string -> TextResult) :
  (forall pkg, In pkg packages ->
     settled (types_item upstream fraction_toString pkg) = Fulfilled (g pkg)) ->
  settled (handleNpmTypes upstream fraction_toString packages)
  = Fulfilled
      (mkResult
         [mkText (String.concat types_delimiter
                    (map (fun pkg => tr_text (g pkg) ++ nl ++ nl) packages))]
         false).
Proof.
  intros Hall. unfold handleNpmTypes.
  erewrite completed_batch by (apply settled_all_fulfilled, Hall).
  cbv zeta.
  rewrite (for_of_indexed_joined (fun r => tr_text r ++ nl ++ nl) types_delimiter).
  now rewrite map_map.
Qed.

Lemma types_item_requests pkg :
  requests (types_item upstream fraction_toString pkg) =
  latest_request pkg
  :: (if types_reads_manifest fraction_toString upstream pkg
      then [types_lookup_request pkg] else []).
Proof.
  unfold types_item, types_reads_manifest, latest_request, types_lookup_request.
  trace. destruct (upstream _) as [e | resp]; [reflexivity|].
  trace. destruct (ok resp); cbn [negb andb]; [| reflexivity].
  trace. destruct (body resp) as [e | data]; [reflexivity|].
  trace. destruct (types_opening fraction_toString pkg data) as [e | opening];
    [reflexivity|].
  trace. repeat (break_match; trace; try reflexivity).
Qed.

(** *** npmCompare *)

Lemma last_month_url pkg :
  "https://api.npmjs.org/downloads/point/last-month/" ++ pkg
  = url (downloads_request "last-month" pkg).
Proof. reflexivity. Qed.

Lemma latest_url pkg :
  "https://registry.npmjs.org/" ++ pkg ++ "/latest" = url (latest_request pkg).
Proof. reflexivity. Qed.

Lemma compare_item_requests pkg :
  requests (compare_item upstream pkg) =
  [bare (latest_request pkg); bare (downloads_request "last-month" pkg)].
Proof.
  unfold compare_item. rewrite last_month_url, latest_url. trace.
  replace (match _ with Fulfilled a => _ | Rejected _ => [] end) with (@nil Request).
  - reflexivity.
  - repeat (break_match; trace; try reflexivity).
Qed.


(** *** npmPackageReadme *)

Lemma readme_item_requests pkg :
  requests (readme_item upstream fraction_toString pkg) = [bare (registry_request pkg)].
Proof.
  unfold readme_item. apply requests_fetch_bind. intro. quiet.
Qed.


(** *** npmTrends *)

Lemma trends_item_requests period pkg :
  requests (trends_item upstream period pkg) = [downloads_request period pkg].
Proof.
  unfold trends_item. apply requests_fetch_bind. intro. quiet.
Qed.




End Aborting.

(** ** Requests of a whole call *)

Section Requests.
Variable upstream : Upstream.
Variable fraction_toString : Q -> string.
Variable toLocaleString : Number -> string.
Variable toFixed : nat -> Number -> string.
Variable encodeURIComponent : string -> string.

Lemma handleNpmDeps_requests packages :
  requests (handleNpmDeps upstream packages) = map latest_request packages.
Proof.
  destruct packages as [| p ps]; [reflexivity|].
  now rewrite handleNpmDeps_eq.
Qed.

Lemma handleNpmTrends_requests packages period :
  requests (handleNpmTrends upstream toLocaleString packages period)
  = map (downloads_request (trends_period period)) packages.
Proof.
  unfold handleNpmTrends. cbv zeta.
  rewrite requests_batch by (intro; apply quiet_ret).
  rewrite map_map. erewrite map_ext; [apply concat_map_singleton|].
  intro. apply trends_item_requests.
Qed.

Lemma handleNpmPackageReadme_requests packages :
  requests (handleNpmPackageReadme upstream fraction_toString packages)
  = map (fun pkg => bare (registry_request pkg)) packages.
Proof.
  unfold handleNpmPackageReadme.
  rewrite requests_batch by (intro; quiet).
  rewrite map_map. erewrite map_ext; [apply concat_map_singleton|].
  intro. apply readme_item_requests.
Qed.

Lemma handleNpmCompare_requests packages :
  requests (handleNpmCompare upstream toLocaleString packages)
  = flat_map (fun pkg => [bare (latest_request pkg);
                          bare (downloads_request "last-month" pkg)]) packages.
Proof.
  unfold handleNpmCompare.
  rewrite requests_batch by (intro; apply quiet_ret).
  rewrite map_map, flat_map_concat_map. f_equal.
  apply map_ext. intro. apply compare_item_requests.
Qed.

Lemma handleNpmTypes_requests packages :
  requests (handleNpmTypes upstream fraction_toString packages)
  = flat_map
      (fun pkg =>
         latest_request pkg
         :: (if types_reads_manifest fraction_toString upstream pkg
             then [types_lookup_request pkg] else []))
      packages.
Proof.
  unfold handleNpmTypes.
  rewrite requests_batch by (intro; apply quiet_ret).
  rewrite map_map, flat_map_concat_map. f_equal.
  apply map_ext. intro. apply types_item_requests.
Qed.

Lemma length_flat_map_pairs {A B} (f g : A -> B) (l : list A) :
  length (flat_map (fun x => [f x; g x]) l) = (2 * length l)%nat.
Proof. induction l; simpl; lia. Qed.

Lemma length_flat_map_one_or_two {A B} (f g : A -> B) (c : A -> bool) (l : list A) :
  length (flat_map (fun x => f x :: (if c x then [g x] else [])) l)
  = (length l + length (filter c l))%nat.
Proof.
  induction l as [| x l IH]; simpl; [reflexivity|].
  rewrite length_app, IH. destruct (c x); simpl; lia.
Qed.

End Requests.

(** ** What the rendered entries need *)

Section Rendering.
Variable upstream : Upstream.
Variable fraction_toString : Q -> string.

Lemma printable_spec (v : Value) :
  printable fraction_toString v = true <->
  exists s, JS.toString fraction_toString v = inr s.
Proof.
  unfold printable. destruct (JS.toString fraction_toString v) as [e | s].
  - split; [discriminate | intros [s H]; discriminate].
  - split; eauto.
Qed.

(** A failure entry always renders; a success entry of npmVersions renders
    when its latest tag converts to a string. *)
Lemma versions_text_renders (r : VersionsResult) :
  (exists entry, versions_text fraction_toString r = inr entry) <->
  match r with
  | VersionsSuccess _ _ latest => printable fraction_toString latest = true
  | VersionsFailure _ _ => True
  end.
Proof.
  destruct r as [name versions latest | name error]; cbn [versions_text].
  - rewrite printable_spec. unfold and_then.
    destruct (JS.toString fraction_toString latest) as [e | s].
    + split; [intros [entry H]; discriminate | intros [s H]; discriminate].
    + split; eauto.
  - split; eauto.
Qed.

Lemma str_or_renders (v : Value) (fallback : string) :
  (exists s, str_or fraction_toString v fallback = inr s) <->
  negb (truthy v) || printable fraction_toString v = true.
Proof.
  unfold str_or. destruct (truthy v); cbn [negb orb].
  - apply iff_sym, printable_spec.
  - split; eauto.
Qed.

Lemma latest_text_renders (r : LatestResult) :
  (exists entry, latest_text fraction_toString r = inr entry) <->
  latest_printable fraction_toString r = true.
Proof.
  destruct r as [name version description author license homepage | name error];
    cbn [latest_text latest_printable]; [| split; eauto].
  pose proof (printable_spec version) as Hv.
  pose proof (str_or_renders description "No description available") as Hd.
  pose proof (str_or_renders author "Unknown") as Ha.
  pose proof (str_or_renders license "Unknown") as Hl.
  pose proof (str_or_renders homepage "Not specified") as Hh.
  rewrite !andb_true_iff, Hv, <- Hd, <- Ha, <- Hl, <- Hh. clear Hv Hd Ha Hl Hh.
  unfold and_then.
  destruct (JS.toString fraction_toString version) as [e | s1].
  { split; [intros [entry H]; discriminate | intros (((([s H] & _) & _) & _) & _)];
      discriminate. }
  destruct (str_or _ description _) as [e | s2].
  { split; [intros [entry H]; discriminate | intros ((((_ & [s H]) & _) & _) & _)];
      discriminate. }
  destruct (str_or _ author _) as [e | s3].
  { split; [intros [entry H]; discriminate | intros (((_ & [s H]) & _) & _)];
      discriminate. }
  destruct (str_or _ license _) as [e | s4].
  { split; [intros [entry H]; discriminate | intros ((_ & [s H]) & _)];
      discriminate. }
  destruct (str_or _ homepage _) as [e | s5].
  { split; [intros [entry H]; discriminate | intros (_ & [s H])]; discriminate. }
  split; [intros _; repeat split; eauto | eauto].
Qed.

(** The call returns the rendered entries when every one of them renders,
    and in that case only. *)
Lemma handleNpmVersions_returns packages r :
  settled (handleNpmVersions upstream fraction_toString packages) = Fulfilled r <->
  isError r = false
  /\ Forall2 (fun pkg entry =>
                versions_text fraction_toString (versions_result upstream pkg) = inr entry)
       packages (content r).
Proof.
  rewrite handleNpmVersions_eq. cbn [settled snd].
  rewrite <- Forall2_map_left_iff
    with (P := fun result entry => versions_text fraction_toString result = inr entry)
         (f := versions_result upstream).
  rewrite <- map_throwing_inv.
  destruct (map_throwing _ _) as [e | content]; split.
  - discriminate.
  - intros [_ H]. discriminate.
  - intros [= <-]. auto.
  - destruct r as [entries flag]; cbn. intros [-> [= ->]]. reflexivity.
Qed.

Lemma handleNpmLatest_returns packages r :
  settled (handleNpmLatest upstream fraction_toString packages) = Fulfilled r <->
  isError r = false
  /\ Forall2 (fun pkg entry =>
                latest_text fraction_toString (latest_result upstream pkg) = inr entry)
       packages (content r).
Proof.
  rewrite handleNpmLatest_eq. cbn [settled snd].
  rewrite <- Forall2_map_left_iff
    with (P := fun result entry => latest_text fraction_toString result = inr entry)
         (f := latest_result upstream).
  rewrite <- map_throwing_inv.
  destruct (map_throwing _ _) as [e | content]; split.
  - discriminate.
  - intros [_ H]. discriminate.
  - intros [= <-]. auto.
  - destruct r as [entries flag]; cbn. intros [-> [= ->]]. reflexivity.
Qed.

Lemma Forall2_total {A B} (P : A -> B -> Prop) (l : list A) :
  (forall x, In x l -> exists y, P x y) -> exists l', Forall2 P l l'.
Proof.
  induction l as [| x l IH]; intros H.
  - exists []. constructor.
  - destruct (H x (or_introl eq_refl)) as [y Hy].
    destruct IH as [l' Hl']; [intros; apply H; now right|].
    exists (y :: l'). now constructor.
Qed.

Lemma handleNpmVersions_renders packages :
  (forall pkg versions latest,
      In pkg packages ->
      versions_result upstream pkg = VersionsSuccess pkg versions latest ->
      printable fraction_toString latest = true) ->
  exists entries,
    settled (handleNpmVersions upstream fraction_toString packages)
    = Fulfilled (mkResult entries false)
    /\ Forall2 (fun pkg entry =>
                  versions_text fraction_toString (versions_result upstream pkg)
                  = inr entry)
         packages entries.
Proof.
  intros H.
  destruct (Forall2_total
              (fun pkg entry =>
                 versions_text fraction_toString (versions_result upstream pkg)
                 = inr entry) packages) as [entries Hentries].
  - intros pkg Hin. apply versions_text_renders.
    pose proof (versions_result_name upstream pkg) as Hname.
    destruct (versions_result upstream pkg) as [name versions latest | name error] eqn:Hr;
      [| exact I].
    cbn in Hname. subst name. now apply (H pkg versions latest).
  - exists entries. split; [| assumption].
    apply handleNpmVersions_returns. auto.
Qed.

Lemma handleNpmLatest_renders packages :
  (forall pkg, In pkg packages ->
     latest_printable fraction_toString (latest_result upstream pkg) = true) ->
  exists entries,
    settled (handleNpmLatest upstream fraction_toString packages)
    = Fulfilled (mkResult entries false)
    /\ Forall2 (fun pkg entry =>
                  latest_text fraction_toString (latest_result upstream pkg) = inr entry)
         packages entries.
Proof.
  intros H.
  destruct (Forall2_total
              (fun pkg entry =>
                 latest_text fraction_toString (latest_result upstream pkg) = inr entry)
              packages) as [entries Hentries].
  - intros pkg Hin. apply latest_text_renders. now apply H.
  - exists entries. split; [| assumption].
    apply handleNpmLatest_returns. auto.
Qed.

(** What the call answers when every package fails. *)
Lemma handleNpmVersions_all_failed packages (reason : string -> string) :
  (forall pkg, In pkg packages ->
     versions_result upstream pkg = VersionsFailure pkg (reason pkg)) ->
  settled (handleNpmVersions upstream fraction_toString packages)
  = Fulfilled
      (mkResult
         (map (fun pkg => mkText ("❌ Error fetching " ++ pkg ++ ": " ++ reason pkg))
            packages)
         false).
Proof.
  intros H. apply handleNpmVersions_returns. cbn [isError content]. split; [reflexivity|].
  apply Forall2_map_right_self_in. intros pkg Hin. now rewrite (H pkg Hin).
Qed.

Lemma handleNpmLatest_all_failed packages (reason : string -> string) :
  (forall pkg, In pkg packages ->
     latest_result upstream pkg = LatestFailure pkg (reason pkg)) ->
  settled (handleNpmLatest upstream fraction_toString packages)
  = Fulfilled
      (mkResult
         (map (fun pkg =>
                 mkText ("❌ Error fetching latest version for " ++ pkg ++ ": "
                         ++ reason pkg))
            packages)
         false).
Proof.
  intros H. apply handleNpmLatest_returns. cbn [isError content]. split; [reflexivity|].
  apply Forall2_map_right_self_in. intros pkg Hin. now rewrite (H pkg Hin).
Qed.

End Rendering.

(** ** npmSearch *)

Section SearchFacts.
Variable upstream : Upstream.
Variable fraction_toString : Q -> string.
Variable toLocaleString : Number -> string.
Variable toFixed : nat -> Number -> string.
Variable encodeURIComponent : string -> string.

Lemma search_limit_default (limit : option Number) :
  match limit with None => True | Some n => Number_falsy n = true end ->
  search_limit limit = Finite 10.
Proof.
  destruct limit as [n |]; simpl; [| reflexivity].
  now intros ->.
Qed.

Lemma Number_toString_10 : Number_toString fraction_toString (Finite 10) = "10".
Proof. reflexivity. Qed.

Lemma handleNpmSearch_requests query limit :
  requests (handleNpmSearch upstream fraction_toString toLocaleString toFixed
              encodeURIComponent query limit)
  = [mkRequest (search_url fraction_toString encodeURIComponent query limit) no_headers].
Proof.
  unfold handleNpmSearch. rewrite requests_try_catch.
  rewrite requests_fetch_bind by (intro; quiet).
  destruct (settled _); reflexivity.
Qed.

Lemma handleNpmSearch_settles query limit :
  exists r,
    settled (handleNpmSearch upstream fraction_toString toLocaleString toFixed
               encodeURIComponent query limit) = Fulfilled r.
Proof.
  unfold handleNpmSearch. rewrite settled_try_catch.
  destruct (settled _); eexists; reflexivity.
Qed.

Lemma handleNpmSearch_served query limit rawData parsed :
  payload upstream
    (mkRequest (search_url fraction_toString encodeURIComponent query limit) no_headers)
    rawData ->
  NpmSearchResultSchema (Some rawData) = Some parsed ->
  settled (handleNpmSearch upstream fraction_toString toLocaleString toFixed
             encodeURIComponent query limit)
  = Fulfilled
      (mkResult
         [mkText (search_header fraction_toString toLocaleString query limit
                    (SearchResult.total parsed)
                  ++ String.concat ""
                       (map (search_entry toFixed) (SearchResult.objects parsed)))]
         false).
Proof.
  unfold handleNpmSearch, payload. intros (resp & Hr & Hok & Hbody) Hparsed.
  step. rewrite Hr. step. rewrite Hok. cbn [negb]. step. rewrite Hbody, Hparsed.
  cbv zeta. step. now rewrite fold_left_append.
Qed.

Lemma handleNpmSearch_report query limit r :
  settled (handleNpmSearch upstream fraction_toString toLocaleString toFixed
             encodeURIComponent query limit) = Fulfilled r ->
  isError r = false ->
  exists parsed,
    content r =
    [mkText (search_header fraction_toString toLocaleString query limit
               (SearchResult.total parsed)
             ++ String.concat ""
                  (map (search_entry toFixed) (SearchResult.objects parsed)))].
Proof.
  unfold handleNpmSearch. rewrite settled_try_catch.
  destruct (settled (bind _ _)) as [a | e] eqn:Hbody.
  - intros [= <-] _. revert Hbody. step.
    destruct (upstream _) as [e | resp]; [discriminate|]. step.
    destruct (ok resp); cbn [negb]; [| discriminate]. step.
    destruct (body resp) as [e | rawData]; [discriminate|].
    destruct (NpmSearchResultSchema (Some rawData)) as [parsed |]; [| discriminate].
    cbv zeta. step. intros [= <-]. exists parsed. cbn [content].
    now rewrite fold_left_append.
  - cbn. intros [= <-]. discriminate.
Qed.

End SearchFacts.

(** ** npmTrends: the period and the daily average *)









(** ** Reports that embed the entry of one package *)




(** * The claims *)

Section Claims.
Variable upstream : Upstream.
Variable fraction_toString : Q -> string.
Variable toLocaleString : Number -> string.
Variable toFixed : nat -> Number -> string.
Variable encodeURIComponent : string -> string.

(** C1 (as amended).  In [handleNpmVersions], [handleNpmLatest] and
    [handleNpmDeps] every item of the list settles with its own result, and
    a failing item (rejected fetch, status that is not OK, payload refused
    by the guard of the handler) settles with a failure entry that always
    renders; the call returns one entry per item whenever the values
    printed for the successful items convert to strings, and a response of
    these handlers is flagged as a top-level error only for the empty list
    given to [handleNpmDeps], before any request.  [handleNpmTypes] instead answers
    the failed fetch or bad status of an item with a single top-level
    error: it carries the reason of a failing item, that of the item itself
    when no other item fails. *)
Theorem C1_failures_stay_per_item (packages : list string) :
  settled (Promise.all (map (versions_item upstream) packages))
  = Fulfilled (map (versions_result upstream) packages)
  /\ settled (Promise.all (map (latest_item upstream) packages))
     = Fulfilled (map (latest_result upstream) packages)
  /\ ((forall pkg versions latest,
          In pkg packages ->
          versions_result upstream pkg = VersionsSuccess pkg versions latest ->
          printable fraction_toString latest = true) ->
      exists entries,
        settled (handleNpmVersions upstream fraction_toString packages)
        = Fulfilled (mkResult entries false)
        /\ Forall2 (fun pkg entry =>
                      versions_text fraction_toString (versions_result upstream pkg)
                      = inr entry)
             packages entries)
  /\ ((forall pkg,
          In pkg packages ->
          latest_printable fraction_toString (latest_result upstream pkg) = true) ->
      exists entries,
        settled (handleNpmLatest upstream fraction_toString packages)
        = Fulfilled (mkResult entries false)
        /\ Forall2 (fun pkg entry =>
                      latest_text fraction_toString (latest_result upstream pkg)
                      = inr entry)
             packages entries)
  /\ (forall r,
        settled (handleNpmVersions upstream fraction_toString packages) = Fulfilled r ->
        isError r = false)
  /\ (forall r,
        settled (handleNpmLatest upstream fraction_toString packages) = Fulfilled r ->
        isError r = false)
  /\ (packages <> [] ->
      settled (handleNpmDeps upstream packages)
      = Fulfilled
          (mkResult
             [mkText (String.concat ""
                        (map (fun pkg => deps_section (deps_result upstream pkg))
                           packages))]
             false))
  /\ (forall pkg reason,
        fetch_failure upstream (registry_request pkg)
          "Failed to fetch package info: " reason ->
        versions_result upstream pkg = VersionsFailure pkg reason)
  /\ (forall pkg reason,
        fetch_failure upstream (latest_request pkg)
          "Failed to fetch latest version: " reason ->
        latest_result upstream pkg = LatestFailure pkg reason)
  /\ (forall pkg reason,
        fetch_failure upstream (latest_request pkg)
          "Failed to fetch package info: " reason ->
        deps_result upstream pkg = DepsFailure pkg reason)
  /\ (forall pkg data,
        payload upstream (registry_request pkg) data ->
        isNpmPackageInfo data = false ->
        versions_result upstream pkg
        = VersionsFailure pkg "Invalid package info format")
  /\ (forall pkg data,
        payload upstream (latest_request pkg) data ->
        isNpmPackageData data = false ->
        deps_result upstream pkg = DepsFailure pkg "Invalid package data received")
  /\ (forall name reason,
        versions_text fraction_toString (VersionsFailure name reason)
        = inr (mkText ("❌ Error fetching " ++ name ++ ": " ++ reason))
        /\ latest_text fraction_toString (LatestFailure name reason)
           = inr (mkText ("❌ Error fetching latest version for " ++ name ++ ": "
                          ++ reason)))
  /\ handleNpmDeps upstream []
     = ([], Fulfilled (error_response "Error fetching dependencies: "
                         (mkError "No package names provided")))
  /\ (forall pkg reason,
        In pkg packages ->
        fetch_failure upstream (latest_request pkg)
          "Failed to fetch package info: " reason ->
        (exists pkg' e,
            In pkg' packages
            /\ settled (types_item upstream fraction_toString pkg') = Rejected e
            /\ settled (handleNpmTypes upstream fraction_toString packages)
               = Fulfilled (error_response "Error checking TypeScript types: " e))
        /\ ((forall other,
                In other packages -> other <> pkg ->
                exists section_,
                  settled (types_item upstream fraction_toString other)
                  = Fulfilled section_) ->
            settled (handleNpmTypes upstream fraction_toString packages)
            = Fulfilled (error_response "Error checking TypeScript types: "
                           (mkError reason)))).
Proof.
  split; [now rewrite versions_fan_out|].
  split; [now rewrite latest_fan_out|].
  split; [apply handleNpmVersions_renders|].
  split; [apply handleNpmLatest_renders|].
  split; [intros r Hr; now apply handleNpmVersions_returns in Hr|].
  split; [intros r Hr; now apply handleNpmLatest_returns in Hr|].
  split; [intros Hne; now rewrite handleNpmDeps_eq|].
  split; [apply versions_fetch_failure|].
  split; [apply latest_fetch_failure|].
  split; [apply deps_fetch_failure|].
  split; [apply versions_bad_shape|].
  split; [apply deps_bad_shape|].
  split; [intros; split; reflexivity|].
  split; [reflexivity|].
  intros pkg reason Hin Hfail.
  pose proof (types_item_rejects upstream fraction_toString pkg reason Hfail) as Hrej.
  split.
  - now apply handleNpmTypes_aborts with (pkg := pkg) (e := mkError reason).
  - now apply handleNpmTypes_aborts_alone.
Qed.

(** C2 (as amended).  Whenever [handleNpmVersions] or [handleNpmLatest]
    returns a response, its content has as many entries as the input list
    has package names (for every list, so for every non-empty one), the
    entry at each position being the section, success or failure, of the
    package at that position; and they do return one whenever the values
    printed for the successful packages convert to strings. *)
Theorem C2_one_entry_per_package (packages : list string) :
  (forall r,
      settled (handleNpmVersions upstream fraction_toString packages) = Fulfilled r ->
      length (content r) = length packages
      /\ Forall2
           (fun pkg entry =>
              exists result,
                VersionsResult_name result = pkg
                /\ versions_text fraction_toString result = inr entry)
           packages (content r))
  /\ ((forall pkg versions latest,
          In pkg packages ->
          versions_result upstream pkg = VersionsSuccess pkg versions latest ->
          printable fraction_toString latest = true) ->
      exists r,
        settled (handleNpmVersions upstream fraction_toString packages) = Fulfilled r
        /\ length (content r) = length packages)
  /\ (forall r,
        settled (handleNpmLatest upstream fraction_toString packages) = Fulfilled r ->
        length (content r) = length packages
        /\ Forall2
             (fun pkg entry =>
                exists result,
                  LatestResult_name result = pkg
                  /\ latest_text fraction_toString result = inr entry)
             packages (content r))
  /\ ((forall pkg,
          In pkg packages ->
          latest_printable fraction_toString (latest_result upstream pkg) = true) ->
      exists r,
        settled (handleNpmLatest upstream fraction_toString packages) = Fulfilled r
        /\ length (content r) = length packages).
Proof.
  split; [| split; [| split]].
  - intros r Hr. apply handleNpmVersions_returns in Hr as [_ Hall].
    split; [symmetry; eapply Forall2_length_eq; exact Hall|].
    eapply Forall2_impl; [| exact Hall]. cbv beta. intros pkg entry Hentry.
    exists (versions_result upstream pkg). split; [apply versions_result_name | assumption].
  - intros H. destruct (handleNpmVersions_renders upstream fraction_toString packages H)
      as (entries & Hr & Hall).
    eexists. split; [exact Hr|]. cbn [content].
    symmetry; eapply Forall2_length_eq; exact Hall.
  - intros r Hr. apply handleNpmLatest_returns in Hr as [_ Hall].
    split; [symmetry; eapply Forall2_length_eq; exact Hall|].
    eapply Forall2_impl; [| exact Hall]. cbv beta. intros pkg entry Hentry.
    exists (latest_result upstream pkg). split; [apply latest_result_name | assumption].
  - intros H. destruct (handleNpmLatest_renders upstream fraction_toString packages H)
      as (entries & Hr & Hall).
    eexists. split; [exact Hr|]. cbn [content].
    symmetry; eapply Forall2_length_eq; exact Hall.
Qed.

(** C3 (as amended).  Called with an empty package list, [handleNpmDeps],
    which tests for it, returns a single top-level error response
    ([isError] true) without issuing a request; the handlers that do not
    test for it return a success report with no per-item section:
    no content entry for [handleNpmVersions] and [handleNpmLatest], one
    entry holding the empty text or only the header for the others. *)
Theorem C3_empty_package_list (period : option string) :
  handleNpmDeps upstream []
  = ([], Fulfilled
           (mkResult
              [mkText "Error fetching dependencies: No package names provided"] true))
  /\ handleNpmVersions upstream fraction_toString [] = ([], Fulfilled (mkResult [] false))
  /\ handleNpmLatest upstream fraction_toString [] = ([], Fulfilled (mkResult [] false))
  /\ handleNpmTypes upstream fraction_toString []
     = ([], Fulfilled (mkResult [mkText ""] false))
  /\ handleNpmPackageReadme upstream fraction_toString []
     = ([], Fulfilled (mkResult [mkText ""] false))
  /\ handleNpmCompare upstream toLocaleString []
     = ([], Fulfilled
              (mkResult
                 [mkText
                    ("📊 Package Comparison" ++ nl ++ nl
                     ++ "Package | Version | Monthly Downloads | Dependencies | License" ++ nl
                     ++ "--------|---------|------------------|--------------|--------" ++ nl)]
                 false))
  /\ handleNpmTrends upstream toLocaleString [] period
     = ([], Fulfilled
              (mkResult
                 [mkText
                    ("📈 Download Trends" ++ nl ++ nl
                     ++ "Period: " ++ trends_period period
                     ++ " (" ++ days_text (trends_period period) ++ " days)" ++ nl ++ nl
                     ++ "Total downloads across all packages: "
                     ++ toLocaleString 0 ++ nl
                     ++ "Average daily downloads across all packages: "
                     ++ daily_average_text toLocaleString 0 (trends_period period)
                     ++ nl)]
                 false)).
Proof.
  do 5 (split; [reflexivity|]).
  split; [vm_compute; reflexivity|].
  unfold handleNpmTrends. cbn [map Promise.all bind ret try_catch fold_left app trends_total].
  now rewrite !append_assoc.
Qed.


(** C5 (as amended).  Whenever [handleNpmVersions] returns a response, it
    holds one content entry per item, in input order; for two packages of
    which the first succeeds, with a latest tag that converts to a string,
    and the second is answered 404, the content is exactly the success
    entry of the first followed by the failure entry of the second.
    [handleNpmTypes] renders the sections of the items in input order,
    joined by the fixed delimiter, when every item settles; when an item is
    answered 404 it renders no section and returns one top-level error. *)
Theorem C5_sections_in_input_order :
  (forall packages r,
      settled (handleNpmVersions upstream fraction_toString packages) = Fulfilled r ->
      Forall2 (fun pkg entry =>
                 versions_text fraction_toString (versions_result upstream pkg)
                 = inr entry)
        packages (content r))
  /\ (forall first second versions latest latest_text resp,
        versions_result upstream first = VersionsSuccess first versions latest ->
        JS.toString fraction_toString latest = inr latest_text ->
        upstream (registry_request second) = inr resp ->
        status resp = 404%Z ->
        settled (handleNpmVersions upstream fraction_toString [first; second])
        = Fulfilled
            (mkResult
               [mkText ("📦 " ++ first ++ ":" ++ nl
                        ++ "Latest version: " ++ latest_text ++ nl
                        ++ "Available versions: " ++ String.concat ", " versions);
                mkText ("❌ Error fetching " ++ second
                        ++ ": Failed to fetch package info: " ++ statusText resp)]
               false))
  /\ (forall packages (section_of : string -> TextResult),
        (forall pkg, In pkg packages ->
           settled (types_item upstream fraction_toString pkg)
           = Fulfilled (section_of pkg)) ->
        settled (handleNpmTypes upstream fraction_toString packages)
        = Fulfilled
            (mkResult
               [mkText (String.concat types_delimiter
                          (map (fun pkg => tr_text (section_of pkg) ++ nl ++ nl)
                             packages))]
               false))
  /\ (forall packages pkg resp,
        In pkg packages ->
        upstream (latest_request pkg) = inr resp ->
        status resp = 404%Z ->
        exists pkg' e,
          In pkg' packages
          /\ settled (types_item upstream fraction_toString pkg') = Rejected e
          /\ settled (handleNpmTypes upstream fraction_toString packages)
             = Fulfilled (error_response "Error checking TypeScript types: " e)).
Proof.
  split; [| split; [| split]].
  - intros packages r Hr. now apply handleNpmVersions_returns in Hr.
  - intros first second versions latest latest_text resp Hfirst Hlatest Hsecond H404.
    apply handleNpmVersions_returns. cbn [isError content]. split; [reflexivity|].
    constructor; [| constructor; [| constructor]].
    + rewrite Hfirst. cbn [versions_text]. now rewrite Hlatest.
    + rewrite (versions_fetch_failure upstream second
                 ("Failed to fetch package info: " ++ statusText resp)).
      * reflexivity.
      * apply bad_status with (resp := resp); [assumption|]. unfold ok. now rewrite H404.
  - intros. now apply handleNpmTypes_joined.
  - intros packages pkg resp Hin Hresp H404.
    apply handleNpmTypes_aborts
      with (pkg := pkg)
           (e := mkError ("Failed to fetch package info: " ++ statusText resp));
      [assumption|].
    apply types_item_rejects.
    apply bad_status with (resp := resp); [assumption|]. unfold ok. now rewrite H404.
Qed.

End Claims.

Section MoreClaims.
Variable upstream : Upstream.
Variable fraction_toString : Q -> string.
Variable toLocaleString : Number -> string.
Variable toFixed : nat -> Number -> string.
Variable encodeURIComponent : string -> string.

(** C6.  [dispatch(name, args)] fails with [UnknownTool] when the name is
    not in the registry, fails with [SchemaMismatch], invoking no handler,
    when the arguments do not satisfy the schema declared for the name, and
    invokes a handler exactly when the name is registered and the
    arguments validate: then it is the handler of that tool, on the parsed
    arguments. *)
Theorem C6_dispatch_validates_first
    (registry : list Registry.ToolDescriptor) (name : string) (args : Value) :
  (~ In name (map Registry.tool_name registry) ->
   Registry.dispatch registry name args
   = Registry.mkDispatched [] (inl Registry.UnknownTool))
  /\ (forall t,
        Registry.lookup registry name = Some t ->
        Registry.tool_schema t args = None ->
        Registry.dispatch registry name args
        = Registry.mkDispatched [] (inl Registry.SchemaMismatch))
  /\ (forall t parsed,
        Registry.lookup registry name = Some t ->
        Registry.tool_schema t args = Some parsed ->
        Registry.tool_name t = name
        /\ Registry.dispatch registry name args
           = Registry.mkDispatched [name] (inr (Registry.tool_handler t parsed)))
  /\ (Registry.invoked (Registry.dispatch registry name args) <> [] <->
      exists t parsed,
        Registry.lookup registry name = Some t
        /\ Registry.tool_schema t args = Some parsed).
Proof.
  unfold Registry.dispatch. split; [| split; [| split; [| split]]].
  - intros Hnot.
    destruct (Registry.lookup registry name) as [t |] eqn:Hl; [| reflexivity].
    exfalso. apply Hnot. unfold Registry.lookup in Hl.
    apply find_some in Hl as [Hin Heq]. apply String.eqb_eq in Heq. subst.
    now apply in_map.
  - intros t Hl Hs. now rewrite Hl, Hs.
  - intros t parsed Hl Hs.
    assert (Hname : Registry.tool_name t = name).
    { unfold Registry.lookup in Hl. apply find_some in Hl as [_ Heq].
      now apply String.eqb_eq. }
    split; [assumption|]. now rewrite Hl, Hs, Hname.
  - destruct (Registry.lookup registry name) as [t |]; [| intros H; now elim H].
    destruct (Registry.tool_schema t args) as [parsed |] eqn:Hs.
    + eauto.
    + intros H; now elim H.
  - intros (t & parsed & -> & ->). discriminate.
Qed.

(** C7 (as amended).  [handleNpmVersions], [handleNpmLatest],
    [handleNpmDeps], [handleNpmTrends] and [handleNpmPackageReadme] issue
    exactly one request per input package, the one for that package and
    no other, so as many requests as packages; [handleNpmCompare] issues
    exactly two per package; [handleNpmTypes] issues one per package and a
    second one for every package whose first answer is OK with a JSON
    payload from which the opening lines of its section can be written. *)
Theorem C7_requests_per_package (packages : list string) (period : option string) :
  requests (handleNpmVersions upstream fraction_toString packages)
  = map registry_request packages
  /\ requests (handleNpmLatest upstream fraction_toString packages)
     = map latest_request packages
  /\ requests (handleNpmDeps upstream packages) = map latest_request packages
  /\ requests (handleNpmTrends upstream toLocaleString packages period)
     = map (downloads_request (trends_period period)) packages
  /\ requests (handleNpmPackageReadme upstream fraction_toString packages)
     = map (fun pkg => bare (registry_request pkg)) packages
  /\ requests (handleNpmCompare upstream toLocaleString packages)
     = flat_map (fun pkg => [bare (latest_request pkg);
                             bare (downloads_request "last-month" pkg)]) packages
  /\ length (requests (handleNpmCompare upstream toLocaleString packages))
     = (2 * length packages)%nat
  /\ requests (handleNpmTypes upstream fraction_toString packages)
     = flat_map
         (fun pkg =>
            latest_request pkg
            :: (if types_reads_manifest fraction_toString upstream pkg
                then [types_lookup_request pkg] else []))
         packages
  /\ length (requests (handleNpmTypes upstream fraction_toString packages))
     = (length packages
        + length (filter (types_reads_manifest fraction_toString upstream) packages))%nat.
Proof.
  repeat split.
  - now rewrite handleNpmVersions_eq.
  - now rewrite handleNpmLatest_eq.
  - apply handleNpmDeps_requests.
  - apply handleNpmTrends_requests.
  - apply handleNpmPackageReadme_requests.
  - apply handleNpmCompare_requests.
  - rewrite handleNpmCompare_requests. apply length_flat_map_pairs.
  - apply handleNpmTypes_requests.
  - rewrite handleNpmTypes_requests. apply length_flat_map_one_or_two.
Qed.

(** C8 (as amended).  Whenever [handleNpmVersions] or [handleNpmLatest]
    returns a response, its [isError] is false; they return one whenever
    the values printed for the successful packages convert to strings, and
    so when every requested package fails: the failures are then the error
    texts of the content entries, one per package, and the flag is still
    false. *)
Theorem C8_versions_latest_never_flag (packages : list string) :
  (forall r,
      settled (handleNpmVersions upstream fraction_toString packages) = Fulfilled r ->
      isError r = false)
  /\ (forall r,
        settled (handleNpmLatest upstream fraction_toString packages) = Fulfilled r ->
        isError r = false)
  /\ ((forall pkg versions latest,
          In pkg packages ->
          versions_result upstream pkg = VersionsSuccess pkg versions latest ->
          printable fraction_toString latest = true) ->
      exists entries,
        settled (handleNpmVersions upstream fraction_toString packages)
        = Fulfilled (mkResult entries false))
  /\ ((forall pkg,
          In pkg packages ->
          latest_printable fraction_toString (latest_result upstream pkg) = true) ->
      exists entries,
        settled (handleNpmLatest upstream fraction_toString packages)
        = Fulfilled (mkResult entries false))
  /\ (forall reason : string -> string,
        (forall pkg, In pkg packages ->
           versions_result upstream pkg = VersionsFailure pkg (reason pkg)) ->
        settled (handleNpmVersions upstream fraction_toString packages)
        = Fulfilled
            (mkResult
               (map (fun pkg =>
                       mkText ("❌ Error fetching " ++ pkg ++ ": " ++ reason pkg))
                  packages)
               false))
  /\ (forall reason : string -> string,
        (forall pkg, In pkg packages ->
           latest_result upstream pkg = LatestFailure pkg (reason pkg)) ->
        settled (handleNpmLatest upstream fraction_toString packages)
        = Fulfilled
            (mkResult
               (map (fun pkg =>
                       mkText ("❌ Error fetching latest version for " ++ pkg ++ ": "
                               ++ reason pkg))
                  packages)
               false)).
Proof.
  split; [| split; [| split; [| split; [| split]]]].
  - intros r Hr. now apply handleNpmVersions_returns in Hr.
  - intros r Hr. now apply handleNpmLatest_returns in Hr.
  - intros H. destruct (handleNpmVersions_renders upstream fraction_toString packages H)
      as (entries & Hr & _). eauto.
  - intros H. destruct (handleNpmLatest_renders upstream fraction_toString packages H)
      as (entries & Hr & _). eauto.
  - apply handleNpmVersions_all_failed.
  - apply handleNpmLatest_all_failed.
Qed.

(** C9.  When the limit is omitted or is a falsy number such as 0,
    [handleNpmSearch] issues its one request with [size=10]; an answer that
    is OK with a payload of the search schema gives the report, not flagged
    as an error, whose header states "showing top 10" above the entries of
    the payload; and whatever the answer, the call returns a response,
    which when it is not an error starts with that header. *)
Theorem C9_search_limit_defaults_to_10 (query : string) (limit : option Number) :
  match limit with None => True | Some n => Number_falsy n = true end ->
  requests (handleNpmSearch upstream fraction_toString toLocaleString toFixed
              encodeURIComponent query limit)
  = [mkRequest ("https://registry.npmjs.org/-/v1/search?text="
                ++ encodeURIComponent query ++ "&size=10") no_headers]
  /\ (forall rawData parsed,
        payload upstream
          (mkRequest ("https://registry.npmjs.org/-/v1/search?text="
                      ++ encodeURIComponent query ++ "&size=10") no_headers)
          rawData ->
        NpmSearchResultSchema (Some rawData) = Some parsed ->
        settled (handleNpmSearch upstream fraction_toString toLocaleString toFixed
                   encodeURIComponent query limit)
        = Fulfilled
            (mkResult
               [mkText ("🔍 Search results for " ++ dquote ++ query ++ dquote ++ nl
                        ++ "Found " ++ toLocaleString (SearchResult.total parsed)
                        ++ " packages (showing top 10)" ++ nl ++ nl
                        ++ String.concat ""
                             (map (search_entry toFixed)
                                (SearchResult.objects parsed)))]
               false))
  /\ (exists r,
         settled (handleNpmSearch upstream fraction_toString toLocaleString toFixed
                    encodeURIComponent query limit) = Fulfilled r)
  /\ (forall r,
         settled (handleNpmSearch upstream fraction_toString toLocaleString toFixed
                    encodeURIComponent query limit) = Fulfilled r ->
         isError r = false ->
         exists total entries,
           content r =
           [mkText ("🔍 Search results for " ++ dquote ++ query ++ dquote ++ nl
                    ++ "Found " ++ toLocaleString total
                    ++ " packages (showing top 10)" ++ nl ++ nl
                    ++ entries)]).
Proof.
  intros Hlimit. apply search_limit_default in Hlimit.
  assert (Hurl : search_url fraction_toString encodeURIComponent query limit
                 = "https://registry.npmjs.org/-/v1/search?text="
                   ++ encodeURIComponent query ++ "&size=10").
  { unfold search_url. now rewrite Hlimit. }
  split; [| split; [| split]].
  - now rewrite handleNpmSearch_requests, Hurl.
  - intros rawData parsed Hp Hparsed. rewrite <- Hurl in Hp.
    rewrite (handleNpmSearch_served _ _ _ _ _ _ _ _ _ Hp Hparsed).
    unfold search_header. rewrite Hlimit, Number_toString_10.
    now rewrite !append_assoc.
  - apply handleNpmSearch_settles.
  - intros r Hr Hok.
    destruct (handleNpmSearch_report _ _ _ _ _ _ _ _ Hr Hok) as [parsed ->].
    exists (SearchResult.total parsed). eexists.
    unfold search_header. rewrite Hlimit, Number_toString_10.
    now rewrite !append_assoc.
Qed.

End MoreClaims.



(** * The claims at the example registry *)



Lemma served_odd :
  payload Example.registry (registry_request "odd") Example.odd_packument.
Proof. exists (mkResponse 200 "OK" (inr Example.odd_packument)). repeat split. Defined.

Lemma left_pad_not_found (prefix : string) (req : string -> Request) :
  Example.registry (req "left-pad") = inr Example.not_found ->
  fetch_failure Example.registry (req "left-pad") prefix (prefix ++ "Not Found").
Proof.
  intros H.
  exact (bad_status Example.registry (req "left-pad") prefix Example.not_found H eq_refl).
Defined.

(** C1, counterexample.  [handleNpmTypes] on a list whose first package is
    served and whose second is answered 404: the first item settles with
    its section, requests have been issued, and the response is one
    top-level error with no entry for the first package.  And in
    [handleNpmVersions] a document that is not of the expected shape, which
    the guard accepts, gives a success entry and no failure. *)
Lemma C1_types_batch_aborted :
  let run := handleNpmTypes Example.registry Example.print_fraction
               ["express"; "left-pad"] in
  (exists section_,
      settled (types_item Example.registry Example.print_fraction "express")
      = Fulfilled section_)
  /\ requests run <> []
  /\ settled run
     = Fulfilled
         (mkResult
            [mkText "Error checking TypeScript types: Failed to fetch package info: Not Found"]
            true)
  /\ payload Example.registry (registry_request "odd") Example.odd_packument
  /\ NpmPackageInfoSchema (Some Example.odd_packument) = None
  /\ versions_result Example.registry "odd" = VersionsSuccess "odd" ["0"; "1"] None.
Proof.
  split; [eexists; vm_compute; reflexivity|].
  split; [vm_compute; discriminate|].
  split; [vm_compute; reflexivity|].
  split; [exact served_odd|].
  split; vm_compute; reflexivity.
Qed.

(** C1, witness: at the example registry the 404 of [left-pad] is a failure
    entry of [handleNpmVersions], which returns its two entries, and it
    aborts [handleNpmTypes] with its own reason. *)
Lemma C1_failures_stay_per_item_witness :
  versions_result Example.registry "left-pad"
  = VersionsFailure "left-pad" "Failed to fetch package info: Not Found"
  /\ (exists entries,
        settled (handleNpmVersions Example.registry Example.print_fraction
                   ["express"; "left-pad"])
        = Fulfilled (mkResult entries false)
        /\ Forall2 (fun pkg entry =>
                      versions_text Example.print_fraction
                        (versions_result Example.registry pkg) = inr entry)
             ["express"; "left-pad"] entries)
  /\ settled (handleNpmTypes Example.registry Example.print_fraction
                ["express"; "left-pad"])
     = Fulfilled (error_response "Error checking TypeScript types: "
                    (mkError "Failed to fetch package info: Not Found")).
Proof.
  destruct (C1_failures_stay_per_item Example.registry Example.print_fraction
              ["express"; "left-pad"])
    as (_ & _ & Hreturns & _ & _ & _ & _ & Hversions & _ & _ & _ & _ & _ & _ & Htypes).
  split; [| split].
  - apply (Hversions "left-pad" "Failed to fetch package info: Not Found").
    exact (left_pad_not_found "Failed to fetch package info: " registry_request eq_refl).
  - apply Hreturns. intros pkg versions latest [<- | [<- | []]] H.
    + vm_compute in H. injection H as _ <-. reflexivity.
    + vm_compute in H. discriminate.
  - apply (Htypes "left-pad" "Failed to fetch package info: Not Found").
    + simpl. auto.
    + exact (left_pad_not_found "Failed to fetch package info: " latest_request eq_refl).
    + intros other [<- | [<- | []]] Hother.
      * eexists. vm_compute. reflexivity.
      * congruence.
Defined.

(** C2, counterexample.  [handleNpmVersions] on a list of two packages, the
    second of which has a latest tag that does not convert to a string:
    the call rejects, and there is no response to count entries in. *)
Lemma C2_unprintable_latest_throws :
  let packages := ["express"; "exotic"] in
  let run := handleNpmVersions Example.registry Example.print_fraction packages in
  packages <> []
  /\ settled run = Rejected conversion_error
  /\ ~ (exists r, settled run = Fulfilled r
                  /\ length (content r) = length packages).
Proof.
  split; [discriminate|].
  split; [vm_compute; reflexivity|].
  intros (r & Hr & _). vm_compute in Hr. discriminate.
Qed.

(** C2, witness: [express] and [left-pad] through [handleNpmVersions]. *)
Lemma C2_one_entry_per_package_witness :
  exists r,
    settled (handleNpmVersions Example.registry Example.print_fraction
               ["express"; "left-pad"]) = Fulfilled r
    /\ length (content r) = 2%nat.
Proof.
  destruct (C2_one_entry_per_package Example.registry Example.print_fraction
              ["express"; "left-pad"])
    as (_ & Hreturns & _).
  apply Hreturns. intros pkg versions latest [<- | [<- | []]] H.
  - vm_compute in H. injection H as _ <-. reflexivity.
  - vm_compute in H. discriminate.
Defined.

(** C3, counterexample.  [handleNpmVersions] on the empty list: an empty
    success report, not a top-level error. *)
Lemma C3_versions_empty_success :
  exists r,
    settled (handleNpmVersions Example.offline Example.print_fraction []) = Fulfilled r
    /\ content r = []
    /\ isError r <> true.
Proof. eexists. split; [reflexivity|]. split; [reflexivity | discriminate]. Qed.



(** C5, counterexample.  [handleNpmTypes] on two packages of which the
    first succeeds and the second is answered 404: the report holds no
    success section and no failure section, only the top-level error. *)
Lemma C5_types_404_drops_sections :
  (exists section_,
      settled (types_item Example.registry Example.print_fraction "express")
      = Fulfilled section_)
  /\ option_map status
       (match Example.registry (latest_request "lodash") with
        | inr resp => Some resp
        | inl _ => None
        end) = Some 404%Z
  /\ settled (handleNpmTypes Example.registry Example.print_fraction
                ["express"; "lodash"])
     = Fulfilled
         (mkResult
            [mkText "Error checking TypeScript types: Failed to fetch package info: Not Found"]
            true).
Proof.
  split; [eexists; vm_compute; reflexivity|].
  split; vm_compute; reflexivity.
Qed.

(** C5, witness: [express] then [left-pad] through [handleNpmVersions]. *)
Lemma C5_sections_in_input_order_witness :
  settled (handleNpmVersions Example.registry Example.print_fraction
             ["express"; "left-pad"])
  = Fulfilled
      (mkResult
         [mkText ("📦 express:" ++ nl
                  ++ "Latest version: 4.18.2" ++ nl
                  ++ "Available versions: 4.18.1, 4.18.2");
          mkText "❌ Error fetching left-pad: Failed to fetch package info: Not Found"]
         false).
Proof.
  destruct (C5_sections_in_input_order Example.registry Example.print_fraction)
    as (_ & Htwo & _).
  apply (Htwo "express" "left-pad" ["4.18.1"; "4.18.2"] (Some (JStr "4.18.2"))
           "4.18.2" Example.not_found); reflexivity.
Defined.

(** C6, witness: the registrations of [src/index.ts] at the example
    registry; an unknown name, and arguments that are not a list. *)
Lemma C6_dispatch_validates_first_witness :
  let tools := Registry.tools Example.registry Example.print_fraction
                 Example.print_locale Example.print_fixed Example.encode in
  Registry.dispatch tools "npmAudit" (Some (JObj [("packages", JArr [JStr "express"])]))
  = Registry.mkDispatched [] (inl Registry.UnknownTool)
  /\ Registry.invoked
       (Registry.dispatch tools "npmVersions" (Some (JObj [("packages", JStr "express")])))
     = [].
Proof.
  intros tools. split.
  - apply (C6_dispatch_validates_first tools "npmAudit").
    cbv [tools Registry.tools map Registry.tool_name In]. intuition discriminate.
  - destruct (C6_dispatch_validates_first tools "npmVersions"
                (Some (JObj [("packages", JStr "express")])))
      as (_ & Hmismatch & _).
    rewrite (Hmismatch
               (Registry.mkTool "npmVersions"
                  "Get all available versions of an NPM package"
                  (list string) Registry.packages_shape
                  (handleNpmVersions Example.registry Example.print_fraction))
               eq_refl eq_refl).
    reflexivity.
Defined.

(** C7, counterexample.  [handleNpmCompare] on one package issues two
    requests. *)
Lemma C7_compare_two_requests :
  length (requests (handleNpmCompare Example.registry Example.print_locale ["express"]))
  = 2%nat
  /\ length (requests (handleNpmCompare Example.registry Example.print_locale ["express"]))
     <> length ["express"].
Proof. split; [reflexivity | vm_compute; discriminate]. Qed.

(** [handleNpmTypes] on a package whose version does not convert to a
    string issues its first request only. *)
Lemma handleNpmTypes_exotic_one_request :
  requests (handleNpmTypes Example.registry Example.print_fraction ["exotic"])
  = [latest_request "exotic"].
Proof. vm_compute. reflexivity. Qed.

(** C8, counterexample.  [handleNpmLatest] and [handleNpmVersions] on a
    package whose version, or latest tag, does not convert to a string:
    the call rejects, so that no response is returned. *)
Lemma C8_unprintable_version_no_response :
  settled (handleNpmLatest Example.registry Example.print_fraction ["exotic"])
  = Rejected conversion_error
  /\ settled (handleNpmVersions Example.registry Example.print_fraction ["exotic"])
     = Rejected conversion_error
  /\ ~ (exists r,
          settled (handleNpmLatest Example.registry Example.print_fraction ["exotic"])
          = Fulfilled r
          /\ isError r = false).
Proof.
  split; [vm_compute; reflexivity|].
  split; [vm_compute; reflexivity|].
  intros (r & Hr & _). vm_compute in Hr. discriminate.
Qed.

(** C8, witness: every package of the list fails at the registry without
    network; the response holds the two error texts and is not flagged. *)
Lemma C8_versions_latest_never_flag_witness :
  settled (handleNpmVersions Example.offline Example.print_fraction ["express"; "lodash"])
  = Fulfilled
      (mkResult
         [mkText "❌ Error fetching express: request to registry failed, reason: ENOTFOUND";
          mkText "❌ Error fetching lodash: request to registry failed, reason: ENOTFOUND"]
         false).
Proof.
  destruct (C8_versions_latest_never_flag Example.offline Example.print_fraction
              ["express"; "lodash"])
    as (_ & _ & _ & _ & Hfailed & _).
  apply (Hfailed (fun _ => "request to registry failed, reason: ENOTFOUND")).
  intros pkg [<- | [<- | []]]; reflexivity.
Defined.

(** C9, witness: a search with the limit omitted, at the example registry. *)
Lemma C9_search_limit_defaults_to_10_witness :
  let run := handleNpmSearch Example.registry Example.print_fraction
               Example.print_locale Example.print_fixed Example.encode "express" None in
  requests run
  = [mkRequest "https://registry.npmjs.org/-/v1/search?text=express&size=10" no_headers]
  /\ exists r entries,
       settled run = Fulfilled r
       /\ isError r = false
       /\ content r
          = [mkText ("🔍 Search results for " ++ dquote ++ "express" ++ dquote ++ nl
                     ++ "Found 1 packages (showing top 10)" ++ nl ++ nl ++ entries)].
Proof.
  intros run.
  destruct (C9_search_limit_defaults_to_10 Example.registry Example.print_fraction
              Example.print_locale Example.print_fixed Example.encode "express" None I)
    as (Hrequests & Hserved & _).
  split; [exact Hrequests|].
  destruct (NpmSearchResultSchema (Some Example.search_hits)) as [parsed |] eqn:Hparsed;
    [| vm_compute in Hparsed; discriminate].
  assert (Hp : payload Example.registry
                 (mkRequest ("https://registry.npmjs.org/-/v1/search?text="
                             ++ Example.encode "express" ++ "&size=10") no_headers)
                 Example.search_hits).
  { exists (mkResponse 200 "OK" (inr Example.search_hits)). repeat split. }
  specialize (Hserved Example.search_hits parsed Hp Hparsed).
  vm_compute in Hparsed. injection Hparsed as <-.
  eexists. eexists. split; [exact Hserved|]. split; reflexivity.
Defined.


